(** * Referee planner (dash.py): record store, report formatter, handlers

    A shallow embedding of [src/dash.py].  The program is a Streamlit script
    around a pandas [DataFrame]: [load_data] reads and normalises the
    spreadsheet, [save_data] overwrites it, [generate_pdf] lays the table out
    for ReportLab, and two sidebar handlers write the table back behind a
    password comparison.

    pandas, openpyxl and ReportLab are not part of the program.  What the
    script needs from them is collected in the class [Pandas] (the spreadsheet
    codec and the date parser); everything the script itself does with the
    values they return is modelled below, line by line. *)

From Stdlib Require Import String Ascii List Bool Arith ZArith Lia QArith.
Import ListNotations.

Local Open Scope nat_scope.
Local Open Scope string_scope.

(** ** Exceptions *)

Module Py.

Inductive exn : Type :=
| KeyError (key : string)
| ZeroDivisionError.

Inductive result (A : Type) : Type :=
| Ok (a : A)
| Raise (e : exn).

Arguments Ok {A} a.
Arguments Raise {A} e.

Definition bind {A B : Type} (m : result A) (k : A -> result B) : result B :=
  match m with
  | Ok a => k a
  | Raise e => Raise e
  end.

Fixpoint mapM {A B : Type} (f : A -> result B) (l : list A) : result (list B) :=
  match l with
  | [] => Ok []
  | x :: r => bind (f x) (fun y => bind (mapM f r) (fun ys => Ok (y :: ys)))
  end.

End Py.

Import Py.

Notation "x <- m ;; k" := (Py.bind m (fun x => k))
  (at level 61, m at next level, right associativity).

(** ** Dates, times and timestamps *)

Module Datetime.

(** [datetime.date], [datetime.time]; a [Timestamp] is a calendar date with a
    time of day, as [pd.Timestamp] and [datetime.datetime] present it. *)
Record date : Type := mkDate { year : nat; month : nat; day : nat }.

Record time : Type :=
  mkTime { hour : nat; minute : nat; second : nat; microsecond : nat }.

Record Timestamp : Type := mkTimestamp { ts_date : date; ts_time : time }.

(** [datetime.combine(event_date, event_time)] *)
Definition combine (d : date) (t : time) : Timestamp :=
  {| ts_date := d; ts_time := t |}.

Definition digit (n : nat) : ascii := ascii_of_nat (48 + n mod 10).

(** [%d], [%m], [%H], [%M]: two digits, zero padded. *)
Definition pad2 (n : nat) : string :=
  String (digit (n / 10)) (String (digit n) "").

(** Four digits, zero padded: the year in [str()] of a timestamp. *)
Definition pad4 (n : nat) : string :=
  String (digit (n / 1000)) (String (digit (n / 100))
    (String (digit (n / 10)) (String (digit n) ""))).

(** [%Y]: the year in decimal, without padding: a year under 1000 has
    fewer than four digits (the years of a [datetime] are 1..9999). *)
Definition year_text (n : nat) : string :=
  if Nat.ltb n 10 then String (digit n) ""
  else if Nat.ltb n 100 then pad2 n
  else if Nat.ltb n 1000 then String (digit (n / 100)) (pad2 n)
  else pad4 n.

(** [cell.strftime("%d/%m/%Y %H:%M")] *)
Definition strftime (t : Timestamp) : string :=
  pad2 (day (ts_date t)) ++ "/" ++ pad2 (month (ts_date t)) ++ "/" ++
  year_text (year (ts_date t)) ++ " " ++
  pad2 (hour (ts_time t)) ++ ":" ++ pad2 (minute (ts_time t)).

(** The fields are within what [strftime] prints in full: two digits each,
    up to four for the year (every [pd.Timestamp] is). *)
Definition printable (t : Timestamp) : bool :=
  Nat.ltb (year (ts_date t)) (100 * 100) && Nat.ltb (month (ts_date t)) 100 &&
  Nat.ltb (day (ts_date t)) 100 && Nat.ltb (hour (ts_time t)) 100 &&
  Nat.ltb (minute (ts_time t)) 100.

End Datetime.

Import Datetime.

(** ** Cells, columns and frames *)

Module Frame.

(** The values a cell of the table can hold.  [CNaT], [CNaN] and [CNone] are
    the values for which [pd.notnull] is [False]; [CObj s] stands for any
    other non-null Python object (a float, a [datetime.time], ...), known by
    the text [str()] gives for it. *)
Inductive cell : Type :=
| CTimestamp (t : Timestamp)
| CNaT
| CNaN
| CNone
| CStr (s : string)
| CInt (z : Z)
| CBool (b : bool)
| CObj (repr : string).

Definition isinstance_Timestamp (c : cell) : bool :=
  match c with
  | CTimestamp _ => true
  | _ => false
  end.

Definition notnull (c : cell) : bool :=
  match c with
  | CNaT | CNaN | CNone => false
  | _ => true
  end.

Fixpoint nat_digits (fuel n : nat) (acc : string) : string :=
  match fuel with
  | 0 => acc
  | S f =>
      let acc' := String (digit n) acc in
      if Nat.ltb n 10 then acc' else nat_digits f (n / 10) acc'
  end.

(** [str(cell)] *)
Definition py_str (c : cell) : string :=
  match c with
  | CTimestamp t =>
      pad4 (year (ts_date t)) ++ "-" ++ pad2 (month (ts_date t)) ++ "-" ++
      pad2 (day (ts_date t)) ++ " " ++ pad2 (hour (ts_time t)) ++ ":" ++
      pad2 (minute (ts_time t)) ++ ":" ++ pad2 (second (ts_time t))
  | CNaT => "NaT"
  | CNaN => "nan"
  | CNone => "None"
  | CStr s => s
  | CInt z =>
      (if Z.ltb z 0 then "-" else "") ++
      nat_digits (S (Z.abs_nat z)) (Z.abs_nat z) ""
  | CBool true => "True"
  | CBool false => "False"
  | CObj repr => repr
  end.

Definition Series : Type := list cell.

(** A frame: its column labels in order, each with its values, and the length
    of its index (a frame without columns still has an index). *)
Record DataFrame : Type :=
  mkFrame { nrows : nat; cols : list (string * Series) }.

(** [df.columns] *)
Definition columns (df : DataFrame) : list string := map fst (cols df).

(** [col in df.columns] *)
Definition contains (l : list string) (col : string) : bool :=
  existsb (String.eqb col) l.

Fixpoint lookup (col : string) (l : list (string * Series)) : option Series :=
  match l with
  | [] => None
  | (k, v) :: r => if String.eqb k col then Some v else lookup col r
  end.

(** [df[col]] *)
Definition getitem (df : DataFrame) (col : string) : result Series :=
  match lookup col (cols df) with
  | Some v => Ok v
  | None => Raise (KeyError col)
  end.

Fixpoint assign (col : string) (v : Series) (l : list (string * Series))
  : list (string * Series) :=
  match l with
  | [] => [(col, v)]
  | (k, w) :: r =>
      if String.eqb k col then (k, v) :: r else (k, w) :: assign col v r
  end.

(** [df[col] = series]: an existing column keeps its place, a new one goes
    last. *)
Definition setitem (df : DataFrame) (col : string) (v : Series) : DataFrame :=
  {| nrows := nrows df; cols := assign col v (cols df) |}.

(** [df[col] = scalar]: the scalar in every row. *)
Definition setitem_scalar (df : DataFrame) (col : string) (c : cell)
  : DataFrame :=
  setitem df col (repeat c (nrows df)).

(** [df.drop(columns=[col], inplace=True)] *)
Definition drop (df : DataFrame) (col : string) : result DataFrame :=
  if contains (columns df) col then
    Ok {| nrows := nrows df;
          cols := filter (fun kv => negb (String.eqb (fst kv) col)) (cols df) |}
  else Raise (KeyError col).

(** [df[names]]: the named columns, in the order asked for. *)
Definition select (df : DataFrame) (names : list string) : result DataFrame :=
  vs <- mapM (fun c => v <- getitem df c ;; Ok (c, v)) names ;;
  Ok {| nrows := nrows df; cols := vs |}.

(** [pd.DataFrame(columns=names)] *)
Definition empty_frame (names : list string) : DataFrame :=
  {| nrows := 0; cols := map (fun c => (c, [])) names |}.

(** [pd.DataFrame([record])]: one row, the keys of the dict as columns. *)
Definition from_record (record : list (string * cell)) : DataFrame :=
  {| nrows := 1; cols := map (fun kv => (fst kv, [snd kv])) record |}.

(** [a.combine_first(b)] on two columns of one frame: the value of [a] where
    it is not null, that of [b] elsewhere. *)
Fixpoint combine_first (a b : Series) : Series :=
  match a, b with
  | x :: a', y :: b' => (if notnull x then x else y) :: combine_first a' b'
  | _, _ => a
  end.

Definition column_or_nan (df : DataFrame) (col : string) : Series :=
  match lookup col (cols df) with
  | Some v => v
  | None => repeat CNaN (nrows df)
  end.

(** [pd.concat([a, b], ignore_index=True)]: the rows of [a], then those of
    [b]; the columns of [a], then those only [b] has; a column one side lacks
    is NaN on that side. *)
Definition concat (a b : DataFrame) : DataFrame :=
  let names :=
    (columns a ++
     filter (fun c => negb (contains (columns a) c)) (columns b))%list in
  {| nrows := nrows a + nrows b;
     cols :=
       map (fun c => (c, (column_or_nan a c ++ column_or_nan b c)%list))
           names |}.

(** [df.itertuples(index=False)] *)
Definition itertuples (df : DataFrame) : list (list cell) :=
  map (fun i => map (fun kv => nth i (snd kv) CNaN) (cols df))
      (seq 0 (nrows df)).

(** [df.at[i, col]], when there is such a cell. *)
Definition at_row (df : DataFrame) (i : nat) (col : string) : option cell :=
  match lookup col (cols df) with
  | Some v => nth_error v i
  | None => None
  end.

(** Every column has one value per index entry. *)
Definition well_formed (df : DataFrame) : bool :=
  forallb (fun kv => Nat.eqb (length (snd kv)) (nrows df)) (cols df).

End Frame.

Import Frame.

(** ** What the script takes from pandas *)

(** [read_excel]/[to_excel] are the spreadsheet codec over whatever a stored
    file is; [parse column value] is what [pd.to_datetime] makes of a value
    that is neither a timestamp nor null, [None] when it cannot be read as a
    date.  The parser sees the column because pandas settles the date format
    per column.

    These are the runs in which pandas returns: a stored file that
    [read_excel] reads, a column that [pd.to_datetime] accepts, a table that
    [to_excel] writes.  What pandas raises on anything else is not part of
    the model. *)
Class Pandas : Type := {
  File : Type;
  read_excel : File -> DataFrame;
  to_excel : DataFrame -> File;
  parse : Series -> cell -> option Timestamp
}.

Module Store.

Section RecordStore.

Context `{Pandas}.

(** One value under [pd.to_datetime(..., errors="coerce")]. *)
Definition to_datetime_cell (column : Series) (c : cell) : cell :=
  match c with
  | CTimestamp t => CTimestamp t
  | CNaT | CNaN | CNone => CNaT
  | _ => match parse column c with
         | Some t => CTimestamp t
         | None => CNaT
         end
  end.

(** [pd.to_datetime(column, errors="coerce")] *)
Definition to_datetime (column : Series) : Series :=
  map (to_datetime_cell column) column.

Definition required_cols : list string :=
  ["Event Start"; "Event Location"; "Post Code"; "Senior Referee";
   "Referee 2"; "Referee 3"; "Referee 4"; "Referee 5"; "Referee 6"].

(** Lines 23-26: fold "Event Date" into "Event Start". *)
Definition migrate (df : DataFrame) : result DataFrame :=
  if negb (contains (columns df) "Event Start")
     && contains (columns df) "Event Date" then
    legacy <- getitem df "Event Date" ;;
    Ok (setitem df "Event Start" (to_datetime legacy))
  else if contains (columns df) "Event Start"
          && contains (columns df) "Event Date" then
    start <- getitem df "Event Start" ;;
    legacy <- getitem df "Event Date" ;;
    Ok (setitem df "Event Start" (to_datetime (combine_first start legacy)))
  else Ok df.

(** Lines 28-29. *)
Definition drop_legacy (df : DataFrame) : result DataFrame :=
  if contains (columns df) "Event Date" then drop df "Event Date" else Ok df.

(** Lines 36-38: the loop over [required_cols]. *)
Definition ensure_required (df : DataFrame) : DataFrame :=
  fold_left
    (fun d col =>
       if negb (contains (columns d) col) then setitem_scalar d col (CStr "")
       else d)
    required_cols df.

(** [load_data()], on the file at [FILE_PATH] when there is one. *)
Definition load_data (storage : option File) : result DataFrame :=
  match storage with
  | Some f =>
      let df := read_excel f in
      df <- migrate df ;;
      df <- drop_legacy df ;;
      let df := ensure_required df in
      select df required_cols
  | None => Ok (empty_frame required_cols)
  end.

(** [save_data(df)]: the file after the call. *)
Definition save_data (df : DataFrame) : option File := Some (to_excel df).

(** Line 98: [df["Event Start"] = pd.to_datetime(df["Event Start"],
    errors="coerce")], on the session's table. *)
Definition coerce_event_start (df : DataFrame) : result DataFrame :=
  start <- getitem df "Event Start" ;;
  Ok (setitem df "Event Start" (to_datetime start)).

(** Lines 94-98: the table the session works on. *)
Definition session_table (storage : option File) (session : option DataFrame)
  : result DataFrame :=
  df <- match session with
        | Some d => Ok d
        | None => load_data storage
        end ;;
  coerce_event_start df.

(** *** The loaded table, column by column

    What the claims say [load_data] returns, written as one value per
    canonical column; [load_data_loaded] below shows it is what the code
    computes. *)

(** A column of the source, or the empty string in every row. *)
Definition column_or_empty (df : DataFrame) (col : string) : Series :=
  match lookup col (cols df) with
  | Some v => v
  | None => repeat (CStr "") (nrows df)
  end.

(** "Event Start" after the migration. *)
Definition migrated_start (df : DataFrame) : Series :=
  match lookup "Event Start" (cols df), lookup "Event Date" (cols df) with
  | None, Some legacy => to_datetime legacy
  | Some start, Some legacy => to_datetime (combine_first start legacy)
  | Some start, None => start
  | None, None => repeat (CStr "") (nrows df)
  end.

Definition loaded_column (df : DataFrame) (col : string) : Series :=
  if String.eqb col "Event Start" then migrated_start df
  else column_or_empty df col.

Definition loaded (df : DataFrame) : DataFrame :=
  {| nrows := nrows df;
     cols := map (fun c => (c, loaded_column df c)) required_cols |}.

(** A value [pd.to_datetime] cannot read: not a timestamp, not null, and
    refused by the parser. *)
Definition unparseable (column : Series) (c : cell) : Prop :=
  isinstance_Timestamp c = false /\ notnull c = true /\ parse column c = None.

(** A timestamp or NaT: what a datetime column holds. *)
Definition is_datetime (c : cell) : bool :=
  match c with
  | CTimestamp _ | CNaT => true
  | _ => false
  end.

End RecordStore.

End Store.

Import Store.

(** ** Report formatter *)

Module Report.

(** The commands of the [TableStyle], with the cell ranges they apply to. *)
Inductive style_cmd : Type :=
| BACKGROUND (start stop : Z * Z) (color : string)
| TEXTCOLOR (start stop : Z * Z) (color : string)
| ALIGN (start stop : Z * Z) (how : string)
| FONTNAME (start stop : Z * Z) (font : string)
| FONTSIZE (start stop : Z * Z) (size : nat)
| BOTTOMPADDING (start stop : Z * Z) (pad : nat)
| GRID (start stop : Z * Z) (width : Q) (color : string).

(** The flowables handed to [doc.build]. *)
Inductive flowable : Type :=
| Paragraph (text style : string)
| Spacer (width height : nat)
| Table (data : list (list string)) (colWidths : list Q)
        (style : list style_cmd).

(** What [SimpleDocTemplate(buffer, pagesize=...)] is built from. *)
Record Document : Type :=
  mkDocument { pagesize : Q * Q; elements : list flowable }.

(** [reportlab.lib.units.mm] is [72 / 25.4] points. *)
Definition mm : Q := 360 # 127.

Definition A4 : Q * Q := ((210 # 1) * mm, (297 # 1) * mm)%Q.

Definition landscape (size : Q * Q) : Q * Q := (snd size, fst size).

(** Lines 63-66: the text of one cell. *)
Definition format_cell (c : cell) : string :=
  match c with
  | CTimestamp t => strftime t
  | _ => if notnull c then py_str c else ""
  end.

(** Lines 59-67. *)
Definition table_data (dataframe : DataFrame) : list (list string) :=
  columns dataframe :: map (map format_cell) (itertuples dataframe).

Definition table_style : list style_cmd :=
  [ BACKGROUND (0, 0)%Z (-1, 0)%Z "black";
    TEXTCOLOR (0, 0)%Z (-1, 0)%Z "white";
    ALIGN (0, 0)%Z (-1, -1)%Z "LEFT";
    FONTNAME (0, 0)%Z (-1, 0)%Z "Helvetica-Bold";
    FONTSIZE (0, 0)%Z (-1, -1)%Z 9;
    BOTTOMPADDING (0, 0)%Z (-1, 0)%Z 6;
    GRID (0, 0)%Z (-1, -1)%Z (1 # 4) "grey" ].

(** [generate_pdf(dataframe)] up to line 84: the document handed to
    [doc.build].  The division of line 72 raises when the frame has no
    column; what ReportLab makes of the document at line 85 is not part of
    the model.  [col_width] is the exact quotient, where the code has a
    float. *)
Definition generate_pdf (dataframe : DataFrame) : result Document :=
  let title := Paragraph "WRPF UK Referee Planner" "Title" in
  let data := table_data dataframe in
  let page_width := fst (landscape A4) in
  let num_columns := length (hd [] data) in
  col_width <- (match num_columns with
                | 0 => Raise ZeroDivisionError
                | S _ => Ok (page_width / inject_Z (Z.of_nat num_columns))%Q
                end) ;;
  let table := Table data (repeat col_width num_columns) table_style in
  Ok {| pagesize := landscape A4;
        elements := [title; Spacer 1 12; table] |}.

End Report.

Import Report.

(** ** The sidebar handlers *)

Module App.

(** The fields of the "add_event_form" and its submit button. *)
Record add_form : Type := mkForm {
  event_date : date;
  event_time : time;
  event_location : string;
  post_code : string;
  senior_ref : string;
  referee_2 : string;
  referee_3 : string;
  referee_4 : string;
  referee_5 : string;
  referee_6 : string;
  submit_event : bool
}.

Section Handlers.

Context `{Pandas}.

(** [PASSWORD = st.secrets["REF_PLANNER_PASSWORD"]] *)
Variable PASSWORD : string.

(** The file at [FILE_PATH] and [st.session_state.data]. *)
Record app : Type :=
  mkApp { storage : option File; session_data : DataFrame }.

(** What a handler does besides changing [app]. *)
Inductive effect : Type :=
| WriteFile (f : File)
| Success (msg : string)
| Error (msg : string)
| Rerun.

Definition handler : Type := app -> app * list effect.

Definition skip : handler := fun s => (s, []).

Definition andthen (a b : handler) : handler :=
  fun s =>
    let (s1, e1) := a s in
    let (s2, e2) := b s1 in
    (s2, (e1 ++ e2)%list).

Local Notation "a >> b" := (andthen a b) (at level 62, right associativity).

(** [save_data(df)], on a table that [to_excel] writes. *)
Definition do_save_data (df : DataFrame) : handler :=
  fun s =>
    ({| storage := save_data df; session_data := session_data s |},
     [WriteFile (to_excel df)]).

(** [st.session_state.data = df] *)
Definition set_session (df : DataFrame) : handler :=
  fun s => ({| storage := storage s; session_data := df |}, []).

Definition emit (e : effect) : handler := fun s => (s, [e]).

(** Lines 130-136: the "Save Changes" button. *)
Definition save_changes (clicked : bool) (edit_password : string)
    (edited_df : DataFrame) : handler :=
  if clicked then
    if String.eqb edit_password PASSWORD then
      do_save_data edited_df >>
      set_session edited_df >>
      emit (Success "✅ Changes saved.")
    else emit (Error "❌ Incorrect password.")
  else skip.

(** Lines 157-167. *)
Definition new_row (form : add_form) : list (string * cell) :=
  let full_datetime := combine (event_date form) (event_time form) in
  [ ("Event Start", CTimestamp full_datetime);
    ("Event Location", CStr (event_location form));
    ("Post Code", CStr (post_code form));
    ("Senior Referee", CStr (senior_ref form));
    ("Referee 2", CStr (referee_2 form));
    ("Referee 3", CStr (referee_3 form));
    ("Referee 4", CStr (referee_4 form));
    ("Referee 5", CStr (referee_5 form));
    ("Referee 6", CStr (referee_6 form)) ].

(** Line 168. *)
Definition updated_df (edited_df : DataFrame) (form : add_form) : DataFrame :=
  concat edited_df (from_record (new_row form)).

(** Lines 140-174: the "Add New Event" form.  The form is drawn, and can be
    submitted, only under the first test. *)
Definition add_event (add_password : string) (form : add_form)
    (edited_df : DataFrame) : handler :=
  if String.eqb add_password PASSWORD then
    if submit_event form then
      do_save_data (updated_df edited_df form) >>
      set_session (updated_df edited_df form) >>
      emit (Success "✅ Event added.") >>
      emit Rerun
    else skip
  else if negb (String.eqb add_password "") then
    emit (Error "❌ Incorrect password.")
  else skip.

Definition is_write (e : effect) : bool :=
  match e with
  | WriteFile _ => true
  | _ => false
  end.

End Handlers.

End App.

Import App.

(** ** A plain spreadsheet, to run the definitions on *)

Module Sheet.

Definition digit_value (a : ascii) : option nat :=
  let n := nat_of_ascii a in
  if Nat.leb 48 n && Nat.leb n 57 then Some (n - 48) else None.

Definition number2 (a b : ascii) : option nat :=
  match digit_value a, digit_value b with
  | Some x, Some y => Some (10 * x + y)
  | _, _ => None
  end.

(** Reads "YYYY-MM-DD" as that day at midnight. *)
Definition parse_iso (s : string) : option Timestamp :=
  match s with
  | String y1 (String y2 (String y3 (String y4 (String "-"
      (String m1 (String m2 (String "-" (String d1 (String d2 ""))))))))) =>
      match number2 y1 y2, number2 y3 y4, number2 m1 m2, number2 d1 d2 with
      | Some yh, Some yl, Some m, Some d =>
          if Nat.leb 1 m && Nat.leb m 12 && Nat.leb 1 d && Nat.leb d 31 then
            Some (mkTimestamp (mkDate (100 * yh + yl) m d) (mkTime 0 0 0 0))
          else None
      | _, _, _, _ => None
      end
  | _ => None
  end.

(** A sheet keeps no empty text and no typed null, as with [to_excel] and
    [read_excel] over openpyxl: each is written as a blank cell, and a blank
    cell is read as NaN. *)
Definition blank (c : cell) : cell :=
  match c with
  | CNaT | CNone => CNaN
  | CStr "" => CNaN
  | _ => c
  end.

Definition write_sheet (df : DataFrame) : DataFrame :=
  {| nrows := nrows df;
     cols := map (fun kv => (fst kv, map blank (snd kv))) (cols df) |}.

#[export] Instance plain : Pandas := {|
  File := DataFrame;
  read_excel := fun f => f;
  to_excel := write_sheet;
  parse := fun _ c => match c with
                      | CStr s => parse_iso s
                      | _ => None
                      end
|}.

Definition midnight (y m d : nat) : Timestamp :=
  mkTimestamp (mkDate y m d) (mkTime 0 0 0 0).

(** The file of the specification's example: a legacy sheet. *)
Definition legacy_sheet : DataFrame :=
  {| nrows := 1;
     cols := [ ("Event Date", [CStr "2024-03-01"]);
               ("Event Location", [CStr "Leeds"]);
               ("Post Code", [CStr "LS1 1AA"]);
               ("Senior Referee", [CStr "J. Smith"]) ] |}.

(** A sheet with both date columns. *)
Definition mixed_sheet : DataFrame :=
  {| nrows := 3;
     cols := [ ("Event Start",
                 [CTimestamp (mkTimestamp (mkDate 2024 5 4) (mkTime 9 30 0 0));
                  CNaT; CStr "tbc"]);
               ("Event Date",
                 [CStr "2024-05-01"; CStr "2024-06-02"; CStr "2024-07-03"]);
               ("Event Location",
                 [CStr "Leeds"; CStr "York"; CStr "Hull"]) ] |}.

(** A sheet in the unified schema whose one date cannot be read. *)
Definition unified_sheet : DataFrame :=
  {| nrows := 1;
     cols := [ ("Event Start", [CStr "next week"]);
               ("Event Location", [CStr "Leeds"]) ] |}.

(** A sheet in the canonical schema, as the editor hands it back. *)
Definition canonical_sheet : DataFrame :=
  {| nrows := 2;
     cols := [ ("Event Start",
                 [CTimestamp (mkTimestamp (mkDate 2024 5 4) (mkTime 9 30 0 0));
                  CNaT]);
               ("Event Location", [CStr "Leeds"; CStr "York"]);
               ("Post Code", [CStr "LS1 1AA"; CStr ""]);
               ("Senior Referee", [CStr "J. Smith"; CNaN]);
               ("Referee 2", [CStr ""; CNaN]);
               ("Referee 3", [CStr ""; CNaN]);
               ("Referee 4", [CStr ""; CNaN]);
               ("Referee 5", [CStr ""; CNaN]);
               ("Referee 6", [CStr ""; CNaN]) ] |}.

Definition sample_form : add_form :=
  {| event_date := mkDate 2024 9 14;
     event_time := mkTime 9 0 0 0;
     event_location := "Leeds";
     post_code := "LS1 1AA";
     senior_ref := "J. Smith";
     referee_2 := "";
     referee_3 := "";
     referee_4 := "";
     referee_5 := "";
     referee_6 := "";
     submit_event := true |}.

(** The legacy sheet with a column of notes, its columns in another order. *)
Definition annotated_sheet : DataFrame :=
  {| nrows := 1;
     cols := [ ("Notes", [CStr "bring the scales"]);
               ("Senior Referee", [CStr "J. Smith"]);
               ("Post Code", [CStr "LS1 1AA"]);
               ("Event Location", [CStr "Leeds"]);
               ("Event Date", [CStr "2024-03-01"]) ] |}.

(** Both date columns, "Event Start" empty throughout. *)
Definition blank_start_sheet : DataFrame :=
  {| nrows := 2;
     cols := [ ("Event Start", [CNaN; CNaT]);
               ("Event Date", [CStr "2024-05-01"; CStr "soon"]) ] |}.

(** Both date columns, "Event Start" filled throughout. *)
Definition full_start_sheet : DataFrame :=
  {| nrows := 2;
     cols := [ ("Event Start", [CStr "2024-05-04"; CStr "tbc"]);
               ("Event Date", [CStr "2024-05-01"; CStr "2024-06-02"]) ] |}.

(** A sheet with a header row and no record. *)
Definition header_only_sheet : DataFrame :=
  {| nrows := 0;
     cols := [ ("Event Date", []); ("Event Location", []); ("Notes", []) ] |}.

Definition second_form : add_form :=
  {| event_date := mkDate 2024 10 5;
     event_time := mkTime 10 30 0 0;
     event_location := "York";
     post_code := "YO1 7HH";
     senior_ref := "";
     referee_2 := "A. Jones";
     referee_3 := "";
     referee_4 := "";
     referee_5 := "";
     referee_6 := "";
     submit_event := true |}.

(** Half a minute after [nine_thirty] below. *)
Definition nine_thirty_and_a_half : Timestamp :=
  mkTimestamp (mkDate 2024 5 4) (mkTime 9 30 30 0).

Definition nine_thirty : Timestamp :=
  mkTimestamp (mkDate 2024 5 4) (mkTime 9 30 0 0).

(** No file yet, and the canonical sheet in the session. *)
Definition closed_app : @app plain :=
  {| storage := None; session_data := canonical_sheet |}.

End Sheet.

(** * Properties *)

(** ** Columns of a frame *)

Section FrameFacts.

Lemma lookup_assign_eq (c : string) (v : Series) (l : list (string * Series)) :
  lookup c (assign c v l) = Some v.
Proof.
  induction l as [|[k w] r IH]; simpl.
  - now rewrite String.eqb_refl.
  - destruct (String.eqb k c) eqn:E; simpl; rewrite E; auto.
Qed.

Lemma lookup_assign_neq (c c' : string) (v : Series)
    (l : list (string * Series)) :
  c <> c' -> lookup c' (assign c v l) = lookup c' l.
Proof.
  intros Hne. induction l as [|[k w] r IH]; simpl.
  - apply String.eqb_neq in Hne. now rewrite Hne.
  - destruct (String.eqb k c) eqn:E; simpl.
    + apply String.eqb_eq in E. subst k.
      apply String.eqb_neq in Hne. now rewrite Hne.
    + now rewrite IH.
Qed.

Lemma lookup_drop_neq (c c' : string) (l : list (string * Series)) :
  c <> c' ->
  lookup c' (filter (fun kv => negb (String.eqb (fst kv) c)) l) = lookup c' l.
Proof.
  intros Hne. induction l as [|[k w] r IH]; simpl; auto.
  destruct (String.eqb k c) eqn:E; simpl.
  - apply String.eqb_eq in E. subst k.
    apply String.eqb_neq in Hne. now rewrite Hne.
  - now rewrite IH.
Qed.

Lemma contains_lookup (c : string) (l : list (string * Series)) :
  contains (map fst l) c =
  match lookup c l with Some _ => true | None => false end.
Proof.
  unfold contains. induction l as [|[k w] r IH]; simpl; auto.
  rewrite (String.eqb_sym c k). destruct (String.eqb k c); simpl; auto.
Qed.

Lemma contains_columns (df : DataFrame) (c : string) :
  contains (columns df) c =
  match lookup c (cols df) with Some _ => true | None => false end.
Proof.
  apply contains_lookup.
Qed.

Lemma contains_In (names : list string) (c : string) :
  contains names c = true <-> In c names.
Proof.
  unfold contains. rewrite existsb_exists. split.
  - intros [x [Hin Heq]]. apply String.eqb_eq in Heq. now subst.
  - intros Hin. exists c. split; auto. apply String.eqb_refl.
Qed.

Lemma mapM_ok {A B : Type} (f : A -> result B) (g : A -> B) (l : list A) :
  (forall x, In x l -> f x = Ok (g x)) -> mapM f l = Ok (map g l).
Proof.
  induction l as [|x r IH]; simpl; intros Hf; auto.
  rewrite (Hf x (or_introl eq_refl)). simpl.
  rewrite IH by (intros y Hy; apply Hf; now right). reflexivity.
Qed.

Lemma select_ok (df : DataFrame) (names : list string) (g : string -> Series) :
  (forall c, In c names -> lookup c (cols df) = Some (g c)) ->
  select df names =
  Ok {| nrows := nrows df; cols := map (fun c => (c, g c)) names |}.
Proof.
  intros Hall. unfold select.
  rewrite (mapM_ok _ (fun c => (c, g c))); [reflexivity|].
  intros c Hc. unfold getitem. now rewrite (Hall c Hc).
Qed.

Lemma columns_map_names (names : list string) (g : string -> Series) :
  map fst (map (fun c => (c, g c)) names) = names.
Proof.
  rewrite map_map. simpl. apply map_id.
Qed.

Lemma lookup_map_names (names : list string) (g : string -> Series)
    (c : string) :
  In c names -> lookup c (map (fun c => (c, g c)) names) = Some (g c).
Proof.
  induction names as [|k r IH]; simpl; [tauto|].
  intros Hin. destruct (String.eqb k c) eqn:E.
  - apply String.eqb_eq in E. now subst.
  - destruct Hin as [->|Hin]; [now rewrite String.eqb_refl in E | auto].
Qed.

End FrameFacts.

(** ** The record store *)

Section StoreFacts.

Context `{Pandas}.

(** The loop of lines 36-38, over any list of labels: a column the frame has
    is kept, one it lacks and the list names is the empty string throughout. *)
Lemma ensure_fold (names : list string) (df : DataFrame) :
  let d' :=
    fold_left
      (fun d col =>
         if negb (contains (columns d) col) then setitem_scalar d col (CStr "")
         else d)
      names df in
  nrows d' = nrows df /\
  forall c,
    lookup c (cols d') =
    match lookup c (cols df) with
    | Some v => Some v
    | None =>
        if contains names c then Some (repeat (CStr "") (nrows df)) else None
    end.
Proof.
  revert df. induction names as [|a names IH]; intros df; simpl.
  - split; auto. intros c. now destruct (lookup c (cols df)).
  - rewrite (contains_columns df a).
    destruct (lookup a (cols df)) as [va|] eqn:Ea; simpl.
    + destruct (IH df) as [Hn Hl]. split; auto.
      intros c. rewrite Hl. destruct (lookup c (cols df)) eqn:Ec; auto.
      destruct (String.eqb c a) eqn:E; auto.
      apply String.eqb_eq in E. subst. congruence.
    + destruct (IH (setitem_scalar df a (CStr ""))) as [Hn Hl].
      split; [exact Hn|]. intros c. rewrite Hl. simpl.
      destruct (String.eqb c a) eqn:E.
      * apply String.eqb_eq in E. subst c.
        now rewrite lookup_assign_eq, Ea.
      * assert (a <> c) by (intros ->; now rewrite String.eqb_refl in E).
        now rewrite lookup_assign_neq by assumption.
Qed.

Lemma ensure_required_lookup (df : DataFrame) (c : string) :
  In c required_cols ->
  lookup c (cols (ensure_required df)) = Some (column_or_empty df c).
Proof.
  intros Hin. unfold ensure_required.
  destruct (ensure_fold required_cols df) as [_ Hl]. rewrite Hl.
  unfold column_or_empty. destruct (lookup c (cols df)); auto.
  apply contains_In in Hin. now rewrite Hin.
Qed.

Lemma ensure_required_nrows (df : DataFrame) :
  nrows (ensure_required df) = nrows df.
Proof.
  unfold ensure_required. now destruct (ensure_fold required_cols df).
Qed.

(** From line 31 on: the nine columns, each from the frame or empty. *)
Lemma select_ensure_required (df : DataFrame) :
  select (ensure_required df) required_cols =
  Ok {| nrows := nrows df;
        cols := map (fun c => (c, column_or_empty df c)) required_cols |}.
Proof.
  rewrite (select_ok _ _ (column_or_empty df)).
  - now rewrite ensure_required_nrows.
  - intros c Hc. now apply ensure_required_lookup.
Qed.

Lemma required_cols_cases (P : string -> Prop) :
  P "Event Start" -> P "Event Location" -> P "Post Code" ->
  P "Senior Referee" -> P "Referee 2" -> P "Referee 3" -> P "Referee 4" ->
  P "Referee 5" -> P "Referee 6" ->
  forall c, In c required_cols -> P c.
Proof.
  intros H1 H2 H3 H4 H5 H6 H7 H8 H9 c Hin. simpl in Hin.
  repeat (destruct Hin as [<-|Hin]; [assumption|]). contradiction.
Qed.

Lemma required_not_legacy (c : string) :
  In c required_cols -> "Event Date" <> c.
Proof.
  revert c. apply required_cols_cases; discriminate.
Qed.

(** [load_data] on a file that exists: it never raises, and returns
    [loaded] of what [read_excel] gave. *)
Lemma load_data_loaded (f : File) :
  load_data (Some f) = Ok (loaded (read_excel f)).
Proof.
  unfold load_data, migrate, drop_legacy, drop, getitem.
  set (t := read_excel f).
  rewrite !contains_columns.
  destruct (lookup "Event Start" (cols t)) as [start|] eqn:Es;
    destruct (lookup "Event Date" (cols t)) as [legacy|] eqn:Ed;
    cbn [negb andb Py.bind];
    rewrite ?contains_columns; cbn [cols setitem];
    rewrite ?lookup_assign_neq by discriminate;
    rewrite ?Ed; cbn [Py.bind];
    rewrite select_ensure_required; cbn [nrows setitem];
    unfold loaded; f_equal; f_equal;
    apply map_ext_in; intros c Hc; f_equal;
    unfold loaded_column, migrated_start, column_or_empty; cbn [cols nrows];
    rewrite Es, Ed;
    pose proof (required_not_legacy c Hc) as Hleg;
    rewrite ?lookup_drop_neq by assumption.
  - destruct (String.eqb c "Event Start") eqn:E.
    + apply String.eqb_eq in E. subst c. now rewrite lookup_assign_eq.
    + rewrite lookup_assign_neq; auto.
      intros <-. now rewrite String.eqb_refl in E.
  - destruct (String.eqb c "Event Start") eqn:E; auto.
    apply String.eqb_eq in E. subst c. now rewrite Es.
  - destruct (String.eqb c "Event Start") eqn:E.
    + apply String.eqb_eq in E. subst c. now rewrite lookup_assign_eq.
    + rewrite lookup_assign_neq; auto.
      intros <-. now rewrite String.eqb_refl in E.
  - destruct (String.eqb c "Event Start") eqn:E; auto.
    apply String.eqb_eq in E. subst c. now rewrite Es.
Qed.

End StoreFacts.

(** ** Loading *)

Section Loading.

Context `{Pandas}.

Lemma loaded_columns (t : DataFrame) : columns (loaded t) = required_cols.
Proof.
  unfold loaded, columns. cbn [cols]. apply columns_map_names.
Qed.

Lemma loaded_getitem (t : DataFrame) (c : string) :
  In c required_cols -> getitem (loaded t) c = Ok (loaded_column t c).
Proof.
  intros Hin. unfold getitem, loaded. cbn [cols].
  now rewrite (lookup_map_names required_cols (loaded_column t) c Hin).
Qed.

Lemma loaded_at_row (t : DataFrame) (i : nat) (c : string) :
  In c required_cols -> at_row (loaded t) i c = nth_error (loaded_column t c) i.
Proof.
  intros Hin. unfold at_row, loaded. cbn [cols].
  now rewrite (lookup_map_names required_cols (loaded_column t) c Hin).
Qed.

Lemma event_start_required : In "Event Start" required_cols.
Proof.
  simpl. auto.
Qed.

Lemma getitem_lookup (df : DataFrame) (c : string) (v : Series) :
  getitem df c = Ok v <-> lookup c (cols df) = Some v.
Proof.
  unfold getitem. destruct (lookup c (cols df)); split; intros E;
    inversion E; subst; auto.
Qed.

Lemma contains_false_lookup (df : DataFrame) (c : string) :
  contains (columns df) c = false <-> lookup c (cols df) = None.
Proof.
  rewrite contains_columns. destruct (lookup c (cols df)); split; congruence.
Qed.

Lemma nth_error_to_datetime (column : Series) (i : nat) (c : cell) :
  nth_error column i = Some c ->
  nth_error (to_datetime column) i = Some (to_datetime_cell column c).
Proof.
  intros E. unfold to_datetime. now apply map_nth_error.
Qed.

Lemma nth_error_combine_first (a b : Series) (i : nat) (x y : cell) :
  nth_error a i = Some x -> nth_error b i = Some y ->
  nth_error (combine_first a b) i = Some (if notnull x then x else y).
Proof.
  revert b i. induction a as [|x' a IH]; intros [|y' b] [|i]; simpl;
    try discriminate.
  - intros [= ->] [= ->]. reflexivity.
  - apply IH.
Qed.

Lemma to_datetime_cell_unparseable (column : Series) (c : cell) :
  unparseable column c -> to_datetime_cell column c = CNaT.
Proof.
  intros (Hts & Hnn & Hp). destruct c; simpl in *; try discriminate;
    now rewrite Hp.
Qed.

Lemma to_datetime_cell_is_datetime (column : Series) (c : cell) :
  is_datetime (to_datetime_cell column c) = true.
Proof.
  destruct c; simpl; auto; destruct (parse column _); auto.
Qed.

(** C6: when no file is stored, [load_data] returns without raising, and what
    it returns has the nine canonical columns, in order, and no row. *)
Theorem load_data_missing_storage :
  exists df,
    load_data None = Ok df /\
    columns df = required_cols /\
    nrows df = 0 /\
    itertuples df = [] /\
    forall c, In c required_cols -> getitem df c = Ok [].
Proof.
  exists (empty_frame required_cols). repeat split.
  apply required_cols_cases; reflexivity.
Qed.

(** C3, as the code has it: for every stored table [load_data] returns a
    table whose columns are the nine canonical ones in their order, with as
    many rows as the source; a canonical column the source lacks is the empty
    string in every row, except "Event Start" when the source has the legacy
    "Event Date" column (it is then filled by the migration). *)
Theorem load_data_canonical_columns (f : File) :
  exists df,
    load_data (Some f) = Ok df /\
    columns df = required_cols /\
    nrows df = nrows (read_excel f) /\
    forall c,
      In c required_cols ->
      contains (columns (read_excel f)) c = false ->
      c <> "Event Start" \/
      contains (columns (read_excel f)) "Event Date" = false ->
      getitem df c = Ok (repeat (CStr "") (nrows (read_excel f))).
Proof.
  exists (loaded (read_excel f)). split; [apply load_data_loaded|].
  split; [apply loaded_columns|]. split; [reflexivity|].
  intros c Hin Habs Hor. rewrite loaded_getitem by assumption. f_equal.
  apply contains_false_lookup in Habs.
  unfold loaded_column, migrated_start, column_or_empty.
  destruct (String.eqb c "Event Start") eqn:E.
  - apply String.eqb_eq in E. subst c. rewrite Habs.
    destruct Hor as [Hne|Hleg]; [congruence|].
    apply contains_false_lookup in Hleg. now rewrite Hleg.
  - now rewrite Habs.
Qed.

(** C2: for every stored table [load_data] returns a table without the
    legacy "Event Date" column.  When the source has "Event Date" and no
    "Event Start", the returned "Event Start" is the legacy column under
    [pd.to_datetime], row by row.  When it has both, the returned
    "Event Start" of a row is [pd.to_datetime] of the row's own "Event Start"
    value where that is not null and of its "Event Date" value otherwise; a
    timestamp already there is returned as it is. *)
Theorem load_data_migrates_legacy_date (f : File) :
  exists df,
    load_data (Some f) = Ok df /\
    contains (columns df) "Event Date" = false /\
    (forall legacy,
       contains (columns (read_excel f)) "Event Start" = false ->
       getitem (read_excel f) "Event Date" = Ok legacy ->
       getitem df "Event Start" = Ok (to_datetime legacy) /\
       forall i c,
         nth_error legacy i = Some c ->
         at_row df i "Event Start" = Some (to_datetime_cell legacy c)) /\
    (forall start legacy,
       getitem (read_excel f) "Event Start" = Ok start ->
       getitem (read_excel f) "Event Date" = Ok legacy ->
       getitem df "Event Start" =
         Ok (to_datetime (combine_first start legacy)) /\
       forall i s l,
         nth_error start i = Some s ->
         nth_error legacy i = Some l ->
         at_row df i "Event Start" =
           Some (to_datetime_cell (combine_first start legacy)
                   (if notnull s then s else l)) /\
         (forall t, s = CTimestamp t ->
                    at_row df i "Event Start" = Some (CTimestamp t))).
Proof.
  exists (loaded (read_excel f)). split; [apply load_data_loaded|].
  split; [now rewrite loaded_columns|]. split.
  - intros legacy Habs Hleg.
    apply contains_false_lookup in Habs. apply getitem_lookup in Hleg.
    assert (Hcol : loaded_column (read_excel f) "Event Start" =
                   to_datetime legacy).
    { unfold loaded_column, migrated_start.
      rewrite String.eqb_refl, Habs, Hleg. reflexivity. }
    split.
    + rewrite loaded_getitem by apply event_start_required. now rewrite Hcol.
    + intros i c Hc. rewrite loaded_at_row by apply event_start_required.
      rewrite Hcol. now apply nth_error_to_datetime.
  - intros start legacy Hst Hleg.
    apply getitem_lookup in Hst. apply getitem_lookup in Hleg.
    assert (Hcol : loaded_column (read_excel f) "Event Start" =
                   to_datetime (combine_first start legacy)).
    { unfold loaded_column, migrated_start.
      rewrite String.eqb_refl, Hst, Hleg. reflexivity. }
    split.
    + rewrite loaded_getitem by apply event_start_required. now rewrite Hcol.
    + intros i s l Hs Hl.
      rewrite loaded_at_row by apply event_start_required. rewrite Hcol.
      pose proof (nth_error_combine_first _ _ _ _ _ Hs Hl) as Hc.
      split.
      * now apply nth_error_to_datetime.
      * intros t ->. simpl in Hc.
        now rewrite (nth_error_to_datetime _ _ _ Hc).
Qed.

(** C7: when the stored table has an "Event Start" column and no
    "Event Date" column, [load_data] returns its "Event Start" column as it
    is, row for row. *)
Theorem load_data_unified_unchanged (f : File) :
  contains (columns (read_excel f)) "Event Start" = true ->
  contains (columns (read_excel f)) "Event Date" = false ->
  exists df,
    load_data (Some f) = Ok df /\
    getitem df "Event Start" = getitem (read_excel f) "Event Start" /\
    forall i, at_row df i "Event Start" = at_row (read_excel f) i "Event Start".
Proof.
  intros Hst Hleg. exists (loaded (read_excel f)).
  split; [apply load_data_loaded|].
  apply contains_false_lookup in Hleg. rewrite contains_columns in Hst.
  destruct (lookup "Event Start" (cols (read_excel f))) as [start|] eqn:Es;
    [|discriminate].
  assert (Hcol : loaded_column (read_excel f) "Event Start" = start).
  { unfold loaded_column, migrated_start.
    rewrite String.eqb_refl, Es, Hleg. reflexivity. }
  split.
  - rewrite loaded_getitem by apply event_start_required.
    unfold getitem. now rewrite Es, Hcol.
  - intros i. rewrite loaded_at_row by apply event_start_required.
    unfold at_row. now rewrite Es, Hcol.
Qed.

Lemma canonical_shape (df : DataFrame) :
  columns df = required_cols ->
  exists v1 v2 v3 v4 v5 v6 v7 v8 v9,
    cols df =
    [ ("Event Start", v1); ("Event Location", v2); ("Post Code", v3);
      ("Senior Referee", v4); ("Referee 2", v5); ("Referee 3", v6);
      ("Referee 4", v7); ("Referee 5", v8); ("Referee 6", v9) ].
Proof.
  unfold columns, required_cols. generalize (cols df) as l. intros l E.
  do 9 (destruct l as [|[? ?] l]; [discriminate E|]).
  destruct l; [|discriminate E].
  simpl in E. injection E as -> -> -> -> -> -> -> -> ->.
  repeat eexists.
Qed.

(** On a table already in the canonical schema, [load_data] changes
    nothing. *)
Lemma loaded_canonical (t : DataFrame) :
  columns t = required_cols -> loaded t = t.
Proof.
  intros Hc. destruct (canonical_shape t Hc)
    as (v1 & v2 & v3 & v4 & v5 & v6 & v7 & v8 & v9 & E).
  destruct t as [n l]. simpl in E. subst l. reflexivity.
Qed.


End Loading.

(** ** Dates that cannot be read *)

Section Coercion.

Context `{Pandas}.

(** C5, as the code has it: in the table [load_data] returns, a row whose
    date cannot be read has a NaT "Event Start" when the source has the
    legacy "Event Date" column (alone, or next to "Event Start": the value
    read is then the row's "Event Start" where that is not null, its
    "Event Date" otherwise).  When the source has only "Event Start",
    [load_data] returns the stored values as they are, such a value
    included. *)
Theorem load_data_unparseable_dates (f : File) (df : DataFrame) :
  load_data (Some f) = Ok df ->
  (forall legacy i c,
     contains (columns (read_excel f)) "Event Start" = false ->
     getitem (read_excel f) "Event Date" = Ok legacy ->
     nth_error legacy i = Some c ->
     unparseable legacy c ->
     at_row df i "Event Start" = Some CNaT) /\
  (forall start legacy i c,
     getitem (read_excel f) "Event Start" = Ok start ->
     getitem (read_excel f) "Event Date" = Ok legacy ->
     nth_error (combine_first start legacy) i = Some c ->
     unparseable (combine_first start legacy) c ->
     at_row df i "Event Start" = Some CNaT) /\
  (forall start i c,
     getitem (read_excel f) "Event Start" = Ok start ->
     contains (columns (read_excel f)) "Event Date" = false ->
     nth_error start i = Some c ->
     getitem df "Event Start" = Ok start /\
     at_row df i "Event Start" = Some c).
Proof.
  rewrite load_data_loaded. intros [= <-].
  set (t := read_excel f).
  split; [|split].
  - intros legacy i c Habs Hleg Hc Hun.
    apply contains_false_lookup in Habs. apply getitem_lookup in Hleg.
    rewrite loaded_at_row by apply event_start_required.
    unfold loaded_column, migrated_start.
    rewrite String.eqb_refl, Habs, Hleg.
    rewrite (nth_error_to_datetime _ _ _ Hc).
    now rewrite to_datetime_cell_unparseable.
  - intros start legacy i c Hst Hleg Hc Hun.
    apply getitem_lookup in Hst. apply getitem_lookup in Hleg.
    rewrite loaded_at_row by apply event_start_required.
    unfold loaded_column, migrated_start.
    rewrite String.eqb_refl, Hst, Hleg.
    rewrite (nth_error_to_datetime _ _ _ Hc).
    now rewrite to_datetime_cell_unparseable.
  - intros start i c Hst Hleg Hc.
    apply getitem_lookup in Hst. apply contains_false_lookup in Hleg.
    assert (Hcol : loaded_column t "Event Start" = start).
    { unfold loaded_column, migrated_start.
      rewrite String.eqb_refl, Hst, Hleg. reflexivity. }
    split.
    + rewrite loaded_getitem by apply event_start_required. now rewrite Hcol.
    + rewrite loaded_at_row by apply event_start_required.
      now rewrite Hcol.
Qed.

End Coercion.

(** ** Saving and loading again *)

Section RoundTrip.

Context `{Pandas}.


End RoundTrip.

(** ** The report *)

Section ReportFacts.

Lemma itertuples_length (df : DataFrame) : length (itertuples df) = nrows df.
Proof.
  unfold itertuples. now rewrite length_map, length_seq.
Qed.

Lemma itertuples_width (df : DataFrame) (row : list cell) :
  In row (itertuples df) -> length row = length (columns df).
Proof.
  unfold itertuples, columns. intros Hin. apply in_map_iff in Hin.
  destruct Hin as (i & <- & _). now rewrite !length_map.
Qed.

Lemma digit_value_digit (k : nat) :
  k < 10 -> Sheet.digit_value (digit k) = Some k.
Proof.
  intros Hk. unfold Sheet.digit_value, digit.
  rewrite Nat.mod_small by lia.
  rewrite nat_ascii_embedding by lia.
  replace (Nat.leb 48 (48 + k)) with true by (symmetry; apply Nat.leb_le; lia).
  replace (Nat.leb (48 + k) 57) with true by (symmetry; apply Nat.leb_le; lia).
  simpl. f_equal. lia.
Qed.

(** The two characters of [pad2 n] are the decimal digits of [n]. *)
Lemma pad2_reads_back (n : nat) :
  n < 100 ->
  exists a b, pad2 n = String a (String b "") /\ Sheet.number2 a b = Some n.
Proof.
  intros Hn. exists (digit (n / 10)), (digit n). split; [reflexivity|].
  unfold Sheet.number2.
  assert (n / 10 < 10) by (apply Nat.Div0.div_lt_upper_bound; lia).
  rewrite digit_value_digit by assumption.
  assert (Hd : digit n = digit (n mod 10)).
  { unfold digit. now rewrite Nat.Div0.mod_mod. }
  rewrite Hd, digit_value_digit by (apply Nat.mod_upper_bound; lia).
  f_equal. symmetry. apply Nat.div_mod_eq.
Qed.

(** From 1000 on [%Y] is the four digits of the year. *)
Lemma year_text_four_digits (y : nat) : 1000 <= y -> year_text y = pad4 y.
Proof.
  intros Hlo. unfold year_text.
  replace (Nat.ltb y 10) with false by (symmetry; apply Nat.ltb_ge; lia).
  replace (Nat.ltb y 100) with false by (symmetry; apply Nat.ltb_ge; lia).
  replace (Nat.ltb y 1000) with false by (symmetry; apply Nat.ltb_ge; lia).
  reflexivity.
Qed.

(** C8: for a table with at least one column, [generate_pdf] returns a
    document made of the title, a spacer and one table; the table's first row
    is the column names, one row follows per record, so a table of N records
    gives N + 1 rows, and the table of no record gives the header row
    alone. *)
Theorem generate_pdf_table_rows (df : DataFrame) :
  columns df <> [] ->
  exists data widths,
    generate_pdf df =
      Ok {| pagesize := landscape A4;
            elements := [ Paragraph "WRPF UK Referee Planner" "Title";
                          Spacer 1 12;
                          Table data widths table_style ] |} /\
    data = columns df :: map (map format_cell) (itertuples df) /\
    length data = nrows df + 1 /\
    (forall row, In row data -> length row = length (columns df)) /\
    length widths = length (columns df) /\
    (nrows df = 0 -> data = [columns df]).
Proof.
  intros Hne. unfold generate_pdf, table_data. cbn [hd].
  destruct (columns df) as [|c0 rest] eqn:Ec; [congruence|].
  cbn [length Py.bind]. do 2 eexists. split; [reflexivity|].
  split; [reflexivity|]. split; [|split; [|split]].
  - cbn [length]. rewrite length_map, itertuples_length. lia.
  - intros row [<-|Hin]; [reflexivity|].
    apply in_map_iff in Hin. destruct Hin as (r & <- & Hr).
    rewrite length_map, (itertuples_width df r Hr). now rewrite Ec.
  - now rewrite repeat_length.
  - intros Hz. unfold itertuples. now rewrite Hz.
Qed.


End ReportFacts.

(** ** The guarded handlers *)

Section HandlerFacts.

Context `{Pandas}.

Variable PASSWORD : string.

Lemma nth_snoc_old (v : Series) (x d : cell) (i : nat) :
  i < length v -> nth i (v ++ [x]) d = nth i v d.
Proof.
  intros Hi. now apply app_nth1.
Qed.

Lemma nth_snoc_new (v : Series) (x d : cell) :
  nth (length v) (v ++ [x]) d = x.
Proof.
  rewrite app_nth2 by lia. now rewrite Nat.sub_diag.
Qed.

(** Line 168 on a table in the canonical schema: the same columns, each with
    the form's value after the values it had. *)
Lemma updated_df_cols (edited_df : DataFrame) (form : add_form) :
  columns edited_df = required_cols ->
  cols (updated_df edited_df form) =
  map (fun c => (c, (column_or_nan edited_df c ++
                     column_or_nan (from_record (new_row form)) c)%list))
      required_cols.
Proof.
  intros Hc. unfold updated_df, concat. cbn [cols]. now rewrite Hc.
Qed.

Lemma updated_df_itertuples (edited_df : DataFrame) (form : add_form) :
  columns edited_df = required_cols ->
  well_formed edited_df = true ->
  itertuples (updated_df edited_df form) =
  (itertuples edited_df ++ [map snd (new_row form)])%list.
Proof.
  intros Hc Hwf.
  destruct (canonical_shape edited_df Hc)
    as (v1 & v2 & v3 & v4 & v5 & v6 & v7 & v8 & v9 & E).
  unfold itertuples. rewrite (updated_df_cols _ _ Hc).
  unfold well_formed in Hwf. unfold column_or_nan.
  rewrite E in *. cbn in Hwf.
  repeat (apply andb_prop in Hwf; destruct Hwf as [?Hlen Hwf]).
  repeat match goal with
         | Hl : Nat.eqb _ _ = true |- _ => apply Nat.eqb_eq in Hl
         end.
  unfold updated_df, concat. cbn [nrows from_record].
  rewrite Nat.add_1_r, seq_S, map_app. cbn [map Nat.add].
  f_equal.
  - apply map_ext_in. intros i Hi. apply in_seq in Hi.
    cbn. rewrite !nth_snoc_old by lia. reflexivity.
  - cbn. f_equal.
    repeat match goal with
           | Hl : length ?v = nrows edited_df |- _ =>
               rewrite <- Hl at 1; rewrite (nth_snoc_new v); clear Hl
           end.
    reflexivity.
Qed.

(** C1: the "Save Changes" and "Add New Event" handlers write the file
    exactly when the password typed is [PASSWORD].  With any other password
    neither writes, and the file and the session's table stay as they were; with
    [PASSWORD], "Save Changes" overwrites the file with the edited table, the
    submitted form overwrites it with the edited table and the new row, and
    each makes the written table the session's. *)
Theorem handlers_write_iff_password
    (s : app) (edited_df : DataFrame) (form : add_form) (password : string) :
  submit_event form = true ->
  (password <> PASSWORD ->
     fst (save_changes PASSWORD true password edited_df s) = s /\
     existsb is_write
       (snd (save_changes PASSWORD true password edited_df s)) = false /\
     fst (add_event PASSWORD password form edited_df s) = s /\
     existsb is_write
       (snd (add_event PASSWORD password form edited_df s)) = false) /\
  (password = PASSWORD ->
     fst (save_changes PASSWORD true password edited_df s) =
       {| storage := Some (to_excel edited_df); session_data := edited_df |} /\
     snd (save_changes PASSWORD true password edited_df s) =
       [WriteFile (to_excel edited_df); Success "✅ Changes saved."] /\
     fst (add_event PASSWORD password form edited_df s) =
       {| storage := Some (to_excel (updated_df edited_df form));
          session_data := updated_df edited_df form |} /\
     snd (add_event PASSWORD password form edited_df s) =
       [WriteFile (to_excel (updated_df edited_df form));
        Success "✅ Event added."; Rerun]).
Proof.
  intros Hsubmit. unfold save_changes, add_event. rewrite Hsubmit. split.
  - intros Hne. apply String.eqb_neq in Hne. rewrite Hne.
    destruct (negb (String.eqb password "")); repeat split.
  - intros ->. rewrite String.eqb_refl. repeat split.
Qed.

(** C10: a submitted add-event form, on an edited table in the canonical
    schema, gives the table with one more row: the rows it had, in their
    order, then the form's row, whose "Event Start" is the timestamp of the
    chosen date at the chosen time, never null.  That table is what is
    saved and kept for the session. *)
Theorem add_event_appends_row
    (s : app) (edited_df : DataFrame) (form : add_form) :
  columns edited_df = required_cols ->
  well_formed edited_df = true ->
  submit_event form = true ->
  let updated := updated_df edited_df form in
  fst (add_event PASSWORD PASSWORD form edited_df s) =
    {| storage := Some (to_excel updated); session_data := updated |} /\
  columns updated = required_cols /\
  nrows updated = nrows edited_df + 1 /\
  itertuples updated =
    (itertuples edited_df ++ [map snd (new_row form)])%list /\
  at_row updated (nrows edited_df) "Event Start" =
    Some (CTimestamp (combine (event_date form) (event_time form))) /\
  notnull (CTimestamp (combine (event_date form) (event_time form))) = true.
Proof.
  intros Hc Hwf Hsubmit updated. subst updated.
  split; [|split; [|split; [|split; [|split]]]].
  - unfold add_event. rewrite String.eqb_refl, Hsubmit. reflexivity.
  - unfold columns. rewrite (updated_df_cols _ _ Hc).
    apply columns_map_names.
  - reflexivity.
  - now apply updated_df_itertuples.
  - unfold at_row. rewrite (updated_df_cols _ _ Hc).
    rewrite (lookup_map_names required_cols _ "Event Start")
      by apply event_start_required.
    destruct (canonical_shape edited_df Hc)
      as (v1 & v2 & v3 & v4 & v5 & v6 & v7 & v8 & v9 & E).
    unfold well_formed in Hwf. unfold column_or_nan. rewrite E in *.
    cbn in Hwf. apply andb_prop in Hwf. destruct Hwf as [Hlen _].
    apply Nat.eqb_eq in Hlen. cbn.
    rewrite <- Hlen. rewrite nth_error_app2 by lia.
    now rewrite Nat.sub_diag.
  - reflexivity.
Qed.

End HandlerFacts.

(** ** The properties on the plain spreadsheet *)

Import Sheet.

(** The example of the specification: one legacy row, loaded. *)
Example load_data_legacy_sheet :
  load_data (Some legacy_sheet) =
  Ok {| nrows := 1;
        cols := [ ("Event Start", [CTimestamp (midnight 2024 3 1)]);
                  ("Event Location", [CStr "Leeds"]);
                  ("Post Code", [CStr "LS1 1AA"]);
                  ("Senior Referee", [CStr "J. Smith"]);
                  ("Referee 2", [CStr ""]); ("Referee 3", [CStr ""]);
                  ("Referee 4", [CStr ""]); ("Referee 5", [CStr ""]);
                  ("Referee 6", [CStr ""]) ] |}.
Proof.
  reflexivity.
Qed.

Lemma handlers_write_iff_password_witness :
  submit_event sample_form = true /\
  "guess" <> "referee" /\
  fst (save_changes "referee" true "guess" canonical_sheet closed_app) =
    closed_app /\
  fst (add_event "referee" "guess" sample_form canonical_sheet closed_app) =
    closed_app /\
  storage
    (fst (save_changes "referee" true "referee" canonical_sheet closed_app)) =
    Some (to_excel canonical_sheet).
Proof.
  assert (Hne : "guess" <> "referee") by discriminate.
  destruct (handlers_write_iff_password (H:=plain) "referee" closed_app
              canonical_sheet sample_form "guess" eq_refl) as [Hwrong _].
  destruct (handlers_write_iff_password (H:=plain) "referee" closed_app
              canonical_sheet sample_form "referee" eq_refl) as [_ Hright].
  destruct (Hwrong Hne) as (Hs & _ & Ha & _).
  destruct (Hright eq_refl) as (Hsave & _).
  split; [reflexivity|]. split; [exact Hne|]. split; [exact Hs|].
  split; [exact Ha|]. now rewrite Hsave.
Defined.

Lemma load_data_migrates_legacy_date_witness :
  exists df,
    load_data (Some mixed_sheet) = Ok df /\
    at_row df 0 "Event Start" = Some (CTimestamp nine_thirty) /\
    at_row df 1 "Event Start" = Some (CTimestamp (midnight 2024 6 2)).
Proof.
  destruct (load_data_migrates_legacy_date (H:=plain) mixed_sheet)
    as (df & Hload & _ & _ & Hboth).
  exists df. split; [exact Hload|].
  destruct (Hboth _ _ eq_refl eq_refl) as [_ Hrow]. split.
  - exact (proj1 (Hrow 0 _ _ eq_refl eq_refl)).
  - exact (proj1 (Hrow 1 _ _ eq_refl eq_refl)).
Defined.

Lemma load_data_canonical_columns_witness :
  In "Referee 2" required_cols /\
  contains (columns (read_excel legacy_sheet)) "Referee 2" = false /\
  exists df,
    load_data (Some legacy_sheet) = Ok df /\
    columns df = required_cols /\
    getitem df "Referee 2" = Ok [CStr ""].
Proof.
  assert (Hin : In "Referee 2" required_cols) by (simpl; auto 10).
  split; [exact Hin|]. split; [reflexivity|].
  destruct (load_data_canonical_columns (H:=plain) legacy_sheet)
    as (df & Hload & Hcols & _ & Hfill).
  exists df. split; [exact Hload|]. split; [exact Hcols|].
  apply (Hfill "Referee 2" Hin eq_refl). left. discriminate.
Defined.

(** The legacy sheet has no "Event Start" column, and what [load_data]
    returns for it is the parsed legacy date, not the empty string. *)
Lemma legacy_start_is_not_empty :
  In "Event Start" required_cols /\
  contains (columns (read_excel legacy_sheet)) "Event Start" = false /\
  (exists df,
     load_data (Some legacy_sheet) = Ok df /\
     getitem df "Event Start" = Ok [CTimestamp (midnight 2024 3 1)]) /\
  ~ (forall (f : File) (c : string),
       In c required_cols ->
       contains (columns (read_excel f)) c = false ->
       exists df,
         load_data (Some f) = Ok df /\
         getitem df c = Ok (repeat (CStr "") (nrows (read_excel f)))).
Proof.
  split; [apply event_start_required|]. split; [reflexivity|]. split.
  - eexists. split; reflexivity.
  - intros Hall.
    destruct (Hall (legacy_sheet : @File plain) "Event Start"
                event_start_required eq_refl)
      as (df & Hload & Hget).
    cbv in Hload. injection Hload as <-. cbv in Hget. discriminate Hget.
Qed.



Lemma load_data_unparseable_dates_witness :
  load_data (Some mixed_sheet) = Ok (loaded mixed_sheet) /\
  unparseable
    (combine_first [CTimestamp nine_thirty; CNaT; CStr "tbc"]
       [CStr "2024-05-01"; CStr "2024-06-02"; CStr "2024-07-03"])
    (CStr "tbc") /\
  at_row (loaded mixed_sheet) 2 "Event Start" = Some CNaT.
Proof.
  assert (Hload : load_data (Some mixed_sheet) = Ok (loaded mixed_sheet))
    by reflexivity.
  assert (Hun : unparseable
                  (combine_first [CTimestamp nine_thirty; CNaT; CStr "tbc"]
                     [CStr "2024-05-01"; CStr "2024-06-02"; CStr "2024-07-03"])
                  (CStr "tbc")) by (repeat split).
  split; [exact Hload|]. split; [exact Hun|].
  destruct (load_data_unparseable_dates (H:=plain) mixed_sheet
              (loaded mixed_sheet) Hload) as (_ & Hboth & _).
  exact (Hboth _ _ 2 (CStr "tbc") eq_refl eq_refl eq_refl Hun).
Defined.

(** The unified sheet holds a date that cannot be read, and [load_data]
    returns it as it is, not NaT. *)
Lemma unified_unparseable_is_kept :
  unparseable [CStr "next week"] (CStr "next week") /\
  getitem (read_excel unified_sheet) "Event Start" = Ok [CStr "next week"] /\
  contains (columns (read_excel unified_sheet)) "Event Date" = false /\
  (exists df,
     load_data (Some unified_sheet) = Ok df /\
     at_row df 0 "Event Start" = Some (CStr "next week")) /\
  ~ (forall (f : File) (start : Series) (i : nat) (c : cell),
       getitem (read_excel f) "Event Start" = Ok start ->
       contains (columns (read_excel f)) "Event Date" = false ->
       nth_error start i = Some c ->
       unparseable start c ->
       exists df,
         load_data (Some f) = Ok df /\
         at_row df i "Event Start" = Some CNaT).
Proof.
  assert (Hun : unparseable [CStr "next week"] (CStr "next week"))
    by (repeat split).
  split; [exact Hun|]. split; [reflexivity|]. split; [reflexivity|]. split.
  - eexists. split; reflexivity.
  - intros Hall.
    destruct (Hall (unified_sheet : @File plain) [CStr "next week"] 0
                (CStr "next week") eq_refl eq_refl eq_refl Hun) as (df & Hload & Hat).
    cbv in Hload. injection Hload as <-. cbv in Hat. discriminate Hat.
Qed.

Lemma load_data_unified_unchanged_witness :
  contains (columns (read_excel unified_sheet)) "Event Start" = true /\
  contains (columns (read_excel unified_sheet)) "Event Date" = false /\
  exists df,
    load_data (Some unified_sheet) = Ok df /\
    getitem df "Event Start" = Ok [CStr "next week"].
Proof.
  split; [reflexivity|]. split; [reflexivity|].
  destruct (load_data_unified_unchanged (H:=plain) unified_sheet
              eq_refl eq_refl)
    as (df & Hload & Hget & _).
  exists df. split; [exact Hload|]. exact Hget.
Defined.

Lemma generate_pdf_table_rows_witness :
  columns (empty_frame required_cols) <> [] /\
  exists data widths,
    generate_pdf (empty_frame required_cols) =
      Ok {| pagesize := landscape A4;
            elements := [ Paragraph "WRPF UK Referee Planner" "Title";
                          Spacer 1 12;
                          Table data widths table_style ] |} /\
    data = [required_cols].
Proof.
  assert (Hne : columns (empty_frame required_cols) <> []) by discriminate.
  split; [exact Hne|].
  destruct (generate_pdf_table_rows (empty_frame required_cols) Hne)
    as (data & widths & Hpdf & _ & _ & _ & _ & Hempty).
  exists data, widths. split; [exact Hpdf|]. exact (Hempty eq_refl).
Defined.


Lemma add_event_appends_row_witness :
  columns canonical_sheet = required_cols /\
  well_formed canonical_sheet = true /\
  submit_event sample_form = true /\
  itertuples (updated_df canonical_sheet sample_form) =
    (itertuples canonical_sheet ++ [map snd (new_row sample_form)])%list /\
  at_row (updated_df canonical_sheet sample_form) 2 "Event Start" =
    Some (CTimestamp (mkTimestamp (mkDate 2024 9 14) (mkTime 9 0 0 0))).
Proof.
  split; [reflexivity|]. split; [reflexivity|]. split; [reflexivity|].
  destruct (add_event_appends_row (H:=plain) "referee" closed_app
              canonical_sheet sample_form eq_refl eq_refl eq_refl)
    as (_ & _ & _ & Hrows & Hstart & _).
  split; [exact Hrows|]. exact Hstart.
Defined.

(** * More of the record store *)

Section StoreMore.

Context `{Pandas}.

Lemma lookup_In (c : string) (v : Series) (l : list (string * Series)) :
  lookup c l = Some v -> In (c, v) l.
Proof.
  induction l as [|[k w] r IH]; simpl; [discriminate|].
  destruct (String.eqb k c) eqn:E.
  - apply String.eqb_eq in E. intros [= ->]. left. now subst.
  - intros Hl. right. now apply IH.
Qed.

Lemma well_formed_lookup (t : DataFrame) (c : string) (v : Series) :
  well_formed t = true -> lookup c (cols t) = Some v -> length v = nrows t.
Proof.
  unfold well_formed. rewrite forallb_forall. intros Hwf Hl.
  apply lookup_In in Hl. apply Hwf in Hl. now apply Nat.eqb_eq in Hl.
Qed.

Lemma combine_first_length (a b : Series) :
  length (combine_first a b) = length a.
Proof.
  revert b. induction a as [|x a IH]; intros [|y b]; simpl; auto.
Qed.

Lemma combine_first_no_null (a b : Series) :
  forallb notnull a = true -> combine_first a b = a.
Proof.
  revert b. induction a as [|x a IH]; intros [|y b]; simpl; auto.
  intros Hall. apply andb_prop in Hall. destruct Hall as [Hx Ha].
  rewrite Hx. now rewrite IH.
Qed.

Lemma combine_first_all_null (a b : Series) :
  length a = length b ->
  forallb (fun c => negb (notnull c)) a = true ->
  combine_first a b = b.
Proof.
  revert b. induction a as [|x a IH]; intros [|y b]; simpl;
    try discriminate; auto.
  intros [= Hlen] Hall. apply andb_prop in Hall. destruct Hall as [Hx Ha].
  apply negb_true_iff in Hx. rewrite Hx. now rewrite IH.
Qed.

Lemma to_datetime_length (column : Series) :
  length (to_datetime column) = length column.
Proof.
  unfold to_datetime. apply length_map.
Qed.

Lemma loaded_column_length (t : DataFrame) (c : string) :
  well_formed t = true -> length (loaded_column t c) = nrows t.
Proof.
  intros Hwf. unfold loaded_column, migrated_start, column_or_empty.
  destruct (String.eqb c "Event Start").
  - destruct (lookup "Event Start" (cols t)) as [start|] eqn:Es;
      destruct (lookup "Event Date" (cols t)) as [legacy|] eqn:Ed;
      rewrite ?to_datetime_length, ?combine_first_length, ?repeat_length;
      eauto using well_formed_lookup.
  - destruct (lookup c (cols t)) eqn:Ec; rewrite ?repeat_length;
      eauto using well_formed_lookup.
Qed.

Lemma loaded_start (t : DataFrame) :
  loaded_column t "Event Start" = migrated_start t.
Proof.
  unfold loaded_column. now rewrite String.eqb_refl.
Qed.

Lemma getitem_eq_lookup (t t' : DataFrame) (c : string) :
  getitem t c = getitem t' c -> lookup c (cols t) = lookup c (cols t').
Proof.
  unfold getitem.
  destruct (lookup c (cols t)), (lookup c (cols t')); congruence.
Qed.

(** X1: a canonical column other than "Event Start" that the stored table
    has is returned by [load_data] as it is stored. *)
Theorem load_data_keeps_other_columns (f : File) (c : string) (v : Series) :
  In c required_cols ->
  c <> "Event Start" ->
  getitem (read_excel f) c = Ok v ->
  exists df, load_data (Some f) = Ok df /\ getitem df c = Ok v.
Proof.
  intros Hin Hne Hget. exists (loaded (read_excel f)).
  split; [apply load_data_loaded|].
  rewrite loaded_getitem by assumption. f_equal.
  apply getitem_lookup in Hget. apply String.eqb_neq in Hne.
  unfold loaded_column, column_or_empty. now rewrite Hne, Hget.
Qed.

(** X2: [load_data] reads the row count, "Event Date" and the nine canonical
    columns, and nothing else: two stored tables that agree on these load
    alike, whatever other columns they have and in whatever order. *)
Theorem load_data_ignores_other_columns (f g : File) :
  nrows (read_excel f) = nrows (read_excel g) ->
  (forall c,
     In c ("Event Date" :: required_cols) ->
     getitem (read_excel f) c = getitem (read_excel g) c) ->
  load_data (Some f) = load_data (Some g).
Proof.
  intros Hn Hsame. rewrite !load_data_loaded. f_equal. unfold loaded.
  rewrite Hn. f_equal. apply map_ext_in. intros c Hc. f_equal.
  assert (Hl : forall k, In k ("Event Date" :: required_cols) ->
                         lookup k (cols (read_excel f)) =
                         lookup k (cols (read_excel g))).
  { intros k Hk. apply getitem_eq_lookup. now apply Hsame. }
  unfold loaded_column, migrated_start, column_or_empty.
  rewrite (Hl "Event Start") by (right; apply event_start_required).
  rewrite (Hl "Event Date") by (left; reflexivity).
  rewrite (Hl c) by (right; exact Hc). now rewrite Hn.
Qed.

(** X3: when every column of the stored table has one value per row, so has
    every column of the table [load_data] returns, for the same rows. *)
Theorem load_data_well_formed (f : File) :
  well_formed (read_excel f) = true ->
  exists df,
    load_data (Some f) = Ok df /\
    nrows df = nrows (read_excel f) /\
    well_formed df = true.
Proof.
  intros Hwf. exists (loaded (read_excel f)).
  split; [apply load_data_loaded|]. split; [reflexivity|].
  unfold well_formed, loaded. cbn [cols nrows]. apply forallb_forall.
  intros kv Hin. apply in_map_iff in Hin. destruct Hin as (c & <- & _).
  cbn [snd]. apply Nat.eqb_eq. now apply loaded_column_length.
Qed.

(** X4: loading is idempotent: a file that reads as a table [load_data]
    returned loads as that very table. *)
Theorem load_data_idempotent (f g : File) (d : DataFrame) :
  load_data (Some f) = Ok d ->
  read_excel g = d ->
  load_data (Some g) = Ok d.
Proof.
  rewrite load_data_loaded. intros [= <-] Hg.
  rewrite load_data_loaded, Hg.
  now rewrite loaded_canonical by apply loaded_columns.
Qed.

(** X5: with both date columns and no "Event Start" value null, the legacy
    column has no say: the returned "Event Start" is [pd.to_datetime] of the
    stored "Event Start". *)
Theorem load_data_full_start_ignores_legacy
    (f : File) (start legacy : Series) :
  getitem (read_excel f) "Event Start" = Ok start ->
  getitem (read_excel f) "Event Date" = Ok legacy ->
  forallb notnull start = true ->
  exists df,
    load_data (Some f) = Ok df /\
    getitem df "Event Start" = Ok (to_datetime start).
Proof.
  intros Hst Hleg Hfull. exists (loaded (read_excel f)).
  split; [apply load_data_loaded|].
  rewrite loaded_getitem by apply event_start_required. f_equal.
  apply getitem_lookup in Hst. apply getitem_lookup in Hleg.
  rewrite loaded_start. unfold migrated_start. rewrite Hst, Hleg.
  now rewrite combine_first_no_null.
Qed.

(** X6: with both date columns, one value per row in each and every
    "Event Start" value null, the table loads as if it had the legacy column
    alone: the returned "Event Start" is [pd.to_datetime] of "Event Date". *)
Theorem load_data_blank_start_uses_legacy
    (f : File) (start legacy : Series) :
  well_formed (read_excel f) = true ->
  getitem (read_excel f) "Event Start" = Ok start ->
  getitem (read_excel f) "Event Date" = Ok legacy ->
  forallb (fun c => negb (notnull c)) start = true ->
  exists df,
    load_data (Some f) = Ok df /\
    getitem df "Event Start" = Ok (to_datetime legacy).
Proof.
  intros Hwf Hst Hleg Hblank. exists (loaded (read_excel f)).
  split; [apply load_data_loaded|].
  rewrite loaded_getitem by apply event_start_required. f_equal.
  apply getitem_lookup in Hst. apply getitem_lookup in Hleg.
  rewrite loaded_start. unfold migrated_start. rewrite Hst, Hleg.
  rewrite combine_first_all_null; auto.
  rewrite (well_formed_lookup _ _ _ Hwf Hst).
  now rewrite (well_formed_lookup _ _ _ Hwf Hleg).
Qed.

Lemma length_zero_nil (v : Series) : length v = 0 -> v = [].
Proof.
  now destruct v.
Qed.

(** X7: a stored table without a row, each of its columns empty, loads as a
    missing file does, whatever its columns are. *)
Theorem load_data_no_rows (f : File) :
  well_formed (read_excel f) = true ->
  nrows (read_excel f) = 0 ->
  load_data (Some f) = load_data None.
Proof.
  intros Hwf Hz. rewrite load_data_loaded. cbn [load_data]. f_equal.
  unfold loaded, empty_frame. rewrite Hz. f_equal.
  apply map_ext. intros c. f_equal. apply length_zero_nil.
  rewrite <- Hz. now apply loaded_column_length.
Qed.

End StoreMore.

(** * More of the session and of the report *)

Section SessionMore.

Context `{Pandas}.

Lemma to_datetime_cell_fixed (column : Series) (c : cell) :
  is_datetime c = true -> to_datetime_cell column c = c.
Proof.
  destruct c; simpl; try discriminate; reflexivity.
Qed.

Lemma to_datetime_twice (column : Series) :
  to_datetime (to_datetime column) = to_datetime column.
Proof.
  unfold to_datetime at 1. unfold to_datetime at 2. rewrite map_map.
  apply map_ext. intros c.
  apply to_datetime_cell_fixed, to_datetime_cell_is_datetime.
Qed.

Lemma assign_assign (c : string) (v w : Series) (l : list (string * Series)) :
  assign c v (assign c w l) = assign c v l.
Proof.
  induction l as [|[k u] r IH]; simpl.
  - now rewrite String.eqb_refl.
  - destruct (String.eqb k c) eqn:E; simpl; rewrite E; auto.
    now rewrite IH.
Qed.

Lemma coerce_event_start_ok (df : DataFrame) (start : Series) :
  lookup "Event Start" (cols df) = Some start ->
  coerce_event_start df =
  Ok (setitem df "Event Start" (to_datetime start)).
Proof.
  intros E. unfold coerce_event_start, getitem. now rewrite E.
Qed.

Lemma coerce_event_start_inv (df d1 : DataFrame) :
  coerce_event_start df = Ok d1 ->
  exists start,
    lookup "Event Start" (cols df) = Some start /\
    d1 = setitem df "Event Start" (to_datetime start).
Proof.
  unfold coerce_event_start, getitem.
  destruct (lookup "Event Start" (cols df)) as [start|]; cbn [Py.bind];
    [|discriminate].
  intros [= <-]. now exists start.
Qed.

Lemma coerce_event_start_datetime (df d1 : DataFrame) (i : nat) (c : cell) :
  coerce_event_start df = Ok d1 ->
  at_row d1 i "Event Start" = Some c ->
  is_datetime c = true.
Proof.
  intros Hco. apply coerce_event_start_inv in Hco.
  destruct Hco as (start & _ & ->).
  unfold at_row, setitem. cbn [cols]. rewrite lookup_assign_eq.
  intros Hc. apply nth_error_In in Hc. unfold to_datetime in Hc.
  apply in_map_iff in Hc. destruct Hc as (x & <- & _).
  apply to_datetime_cell_is_datetime.
Qed.

(** X8: line 98 is idempotent: on the table it returned it returns that
    table again, so running it on every rerun of the script changes the
    session's table once at most. *)
Theorem coerce_event_start_idempotent (df d1 : DataFrame) :
  coerce_event_start df = Ok d1 ->
  coerce_event_start d1 = Ok d1.
Proof.
  intros Hco. apply coerce_event_start_inv in Hco.
  destruct Hco as (start & _ & ->).
  rewrite (coerce_event_start_ok _ (to_datetime start)).
  - unfold setitem. cbn [cols nrows].
    now rewrite to_datetime_twice, assign_assign.
  - unfold setitem. cbn [cols]. apply lookup_assign_eq.
Qed.

(** X10: in the session's table, whatever it was made from, every
    "Event Start" is a timestamp, which the report prints with [strftime]
    (sixteen characters when the year has four digits), or NaT, which it
    prints as nothing. *)
Theorem session_event_start_renders
    (storage : option File) (session : option DataFrame) (df : DataFrame)
    (i : nat) (c : cell) :
  session_table storage session = Ok df ->
  at_row df i "Event Start" = Some c ->
  (c = CNaT /\ format_cell c = "") \/
  (exists t,
     c = CTimestamp t /\
     format_cell c = strftime t /\
     (1000 <= year (ts_date t) < 100 * 100 ->
      String.length (format_cell c) = 16)).
Proof.
  unfold session_table. intros Hs Hc.
  destruct (match session with
            | Some d => Ok d
            | None => load_data storage
            end) as [d|e]; cbn [Py.bind] in Hs; [|discriminate].
  pose proof (coerce_event_start_datetime _ _ _ _ Hs Hc) as Hdt.
  destruct c; simpl in Hdt; try discriminate.
  - right. exists t. split; [reflexivity|]. split; [reflexivity|].
    destruct t as [[y m d0] [h mi s us]]. cbn [ts_date year].
    intros [Hlo _]. unfold format_cell, strftime.
    cbn [ts_date ts_time year month day hour minute].
    rewrite (year_text_four_digits y Hlo). reflexivity.
  - left. split; reflexivity.
Qed.

End SessionMore.

Section ReportMore.

(** X11: on a table without a column [generate_pdf] raises
    ZeroDivisionError, at the division of line 72, before any document is
    put together. *)
Theorem generate_pdf_no_column_raises (df : DataFrame) :
  columns df = [] -> generate_pdf df = Raise ZeroDivisionError.
Proof.
  intros Hc. unfold generate_pdf, table_data. cbn [hd]. now rewrite Hc.
Qed.

Lemma digit_inj (a b : nat) : digit a = digit b -> a mod 10 = b mod 10.
Proof.
  unfold digit. intros E. apply (f_equal nat_of_ascii) in E.
  assert (a mod 10 < 10) by (apply Nat.mod_upper_bound; lia).
  assert (b mod 10 < 10) by (apply Nat.mod_upper_bound; lia).
  rewrite !nat_ascii_embedding in E by lia. lia.
Qed.

Lemma two_digits_inj (a b : nat) :
  a < 100 -> b < 100 ->
  digit (a / 10) = digit (b / 10) -> digit a = digit b -> a = b.
Proof.
  intros Ha Hb H1 H0. apply digit_inj in H1. apply digit_inj in H0.
  assert (a / 10 < 10) by (apply Nat.Div0.div_lt_upper_bound; lia).
  assert (b / 10 < 10) by (apply Nat.Div0.div_lt_upper_bound; lia).
  rewrite !Nat.mod_small in H1 by assumption.
  rewrite (Nat.div_mod_eq a 10), (Nat.div_mod_eq b 10). now rewrite H1, H0.
Qed.

Lemma four_digits_inj (a b : nat) :
  a < 100 * 100 -> b < 100 * 100 ->
  digit (a / 1000) = digit (b / 1000) -> digit (a / 100) = digit (b / 100) ->
  digit (a / 10) = digit (b / 10) -> digit a = digit b -> a = b.
Proof.
  intros Ha Hb H3 H2 H1 H0.
  apply digit_inj in H3. apply digit_inj in H2.
  apply digit_inj in H1. apply digit_inj in H0.
  assert (R : forall n, n < 100 * 100 ->
            n = 1000 * ((n / 1000) mod 10) + 100 * ((n / 100) mod 10) +
                10 * ((n / 10) mod 10) + n mod 10).
  { intros n Hn.
    pose proof (Nat.div_mod_eq n 10) as E0.
    pose proof (Nat.div_mod_eq (n / 10) 10) as E1.
    pose proof (Nat.div_mod_eq (n / 10 / 10) 10) as E2.
    rewrite !Nat.Div0.div_div in E2. rewrite Nat.Div0.div_div in E1.
    cbn [Nat.mul Nat.add] in E1, E2.
    assert (n / 1000 < 10) by (apply Nat.Div0.div_lt_upper_bound; lia).
    rewrite (Nat.mod_small (n / 1000)) by assumption.
    assert (E3 : n / 100 / 10 = n / 1000)
      by (now rewrite Nat.Div0.div_div).
    lia. }
  rewrite (R a Ha), (R b Hb). now rewrite H3, H2, H1, H0.
Qed.

Lemma one_digit_inj (a b : nat) :
  a < 10 -> b < 10 -> digit a = digit b -> a = b.
Proof.
  intros Ha Hb H0. apply digit_inj in H0.
  now rewrite !Nat.mod_small in H0 by assumption.
Qed.

Lemma three_digits_inj (a b : nat) :
  a < 1000 -> b < 1000 ->
  digit (a / 100) = digit (b / 100) -> digit (a / 10) = digit (b / 10) ->
  digit a = digit b -> a = b.
Proof.
  intros Ha Hb H2 H1 H0.
  apply digit_inj in H2. apply digit_inj in H1. apply digit_inj in H0.
  assert (R : forall n, n < 1000 ->
            n = 100 * ((n / 100) mod 10) + 10 * ((n / 10) mod 10) +
                n mod 10).
  { intros n Hn.
    pose proof (Nat.div_mod_eq n 10) as E0.
    pose proof (Nat.div_mod_eq (n / 10) 10) as E1.
    rewrite Nat.Div0.div_div in E1. cbn [Nat.mul Nat.add] in E1.
    assert (n / 100 < 10) by (apply Nat.Div0.div_lt_upper_bound; lia).
    rewrite (Nat.mod_small (n / 100)) by assumption.
    lia. }
  rewrite (R a Ha), (R b Hb). now rewrite H2, H1, H0.
Qed.

(** X13: the report prints a timestamp to the minute: two timestamps (with
    fields of at most two digits, four for the year) print alike exactly
    when they are the same day, hour and minute; seconds do not show. *)
Theorem format_cell_timestamp_to_the_minute (t1 t2 : Timestamp) :
  printable t1 = true ->
  printable t2 = true ->
  format_cell (CTimestamp t1) = format_cell (CTimestamp t2) <->
  ts_date t1 = ts_date t2 /\
  hour (ts_time t1) = hour (ts_time t2) /\
  minute (ts_time t1) = minute (ts_time t2).
Proof.
  destruct t1 as [[y1 m1 d1] [h1 mi1 s1 u1]].
  destruct t2 as [[y2 m2 d2] [h2 mi2 s2 u2]].
  unfold printable. cbn [ts_date ts_time year month day hour minute].
  intros P1 P2.
  repeat (apply andb_prop in P1; destruct P1 as [P1 ?]).
  repeat (apply andb_prop in P2; destruct P2 as [P2 ?]).
  split.
  - unfold format_cell, strftime, year_text.
    cbn [ts_date ts_time day month year hour minute].
    destruct (Nat.ltb y1 10) eqn:A1;
      [|destruct (Nat.ltb y1 100) eqn:B1;
          [|destruct (Nat.ltb y1 1000) eqn:C1]];
      (destruct (Nat.ltb y2 10) eqn:A2;
         [|destruct (Nat.ltb y2 100) eqn:B2;
             [|destruct (Nat.ltb y2 1000) eqn:C2]]);
      unfold pad2, pad4; cbn [String.append]; intros E;
      try discriminate E; injection E; clear E; intros;
      repeat match goal with
             | Hl : Nat.ltb _ _ = true |- _ => apply Nat.ltb_lt in Hl
             | Hl : Nat.ltb _ _ = false |- _ => apply Nat.ltb_ge in Hl
             end;
      assert (d1 = d2) by (apply two_digits_inj; assumption);
      assert (m1 = m2) by (apply two_digits_inj; assumption);
      assert (h1 = h2) by (apply two_digits_inj; assumption);
      assert (mi1 = mi2) by (apply two_digits_inj; assumption);
      assert (y1 = y2)
        by first [ apply one_digit_inj; assumption
                 | apply two_digits_inj; assumption
                 | apply three_digits_inj; assumption
                 | apply four_digits_inj; assumption ];
      subst; repeat split.
  - intros (Ed & -> & ->). injection Ed as -> -> ->. reflexivity.
Qed.

End ReportMore.

(** * More of the handlers *)

Section HandlersMore.

Context `{Pandas}.

Variable PASSWORD : string.

Lemma updated_df_columns (edited_df : DataFrame) (form : add_form) :
  columns edited_df = required_cols ->
  columns (updated_df edited_df form) = required_cols.
Proof.
  intros Hc. unfold columns. rewrite (updated_df_cols _ _ Hc).
  apply columns_map_names.
Qed.

Lemma column_or_nan_length (df : DataFrame) (c : string) :
  well_formed df = true -> length (column_or_nan df c) = nrows df.
Proof.
  intros Hwf. unfold column_or_nan.
  destruct (lookup c (cols df)) eqn:E.
  - now apply (well_formed_lookup df c).
  - apply repeat_length.
Qed.

Lemma updated_df_well_formed (edited_df : DataFrame) (form : add_form) :
  columns edited_df = required_cols ->
  well_formed edited_df = true ->
  well_formed (updated_df edited_df form) = true.
Proof.
  intros Hc Hwf. unfold well_formed. rewrite (updated_df_cols _ _ Hc).
  apply forallb_forall. intros kv Hin. apply in_map_iff in Hin.
  destruct Hin as (c & <- & Hreq). cbn [snd]. apply Nat.eqb_eq.
  rewrite length_app, (column_or_nan_length _ _ Hwf).
  unfold updated_df, concat. cbn [nrows from_record]. f_equal.
  revert c Hreq. apply required_cols_cases; reflexivity.
Qed.

Lemma to_datetime_fixed (column : Series) :
  forallb is_datetime column = true -> to_datetime column = column.
Proof.
  intros Hall. unfold to_datetime. rewrite <- (map_id column) at 3.
  apply map_ext_in. intros c Hc. apply to_datetime_cell_fixed.
  rewrite forallb_forall in Hall. now apply Hall.
Qed.

Lemma assign_same (c : string) (v : Series) (l : list (string * Series)) :
  lookup c l = Some v -> assign c v l = l.
Proof.
  induction l as [|[k w] r IH]; simpl; [discriminate|].
  destruct (String.eqb k c) eqn:E.
  - now intros [= ->].
  - intros Hl. now rewrite IH.
Qed.

(** X14: "Save Changes" writes the file exactly when the button was clicked
    and the password is [PASSWORD]; the add form writes it exactly when the
    password is [PASSWORD] and the form was submitted.  A handler that does
    not write leaves the file and the session's table as they were. *)
Theorem handlers_write_exactly_when
    (s : app) (clicked : bool) (password : string) (edited_df : DataFrame)
    (form : add_form) :
  existsb is_write (snd (save_changes PASSWORD clicked password edited_df s)) =
    clicked && String.eqb password PASSWORD /\
  existsb is_write (snd (add_event PASSWORD password form edited_df s)) =
    String.eqb password PASSWORD && submit_event form /\
  (clicked && String.eqb password PASSWORD = false ->
   fst (save_changes PASSWORD clicked password edited_df s) = s) /\
  (String.eqb password PASSWORD && submit_event form = false ->
   fst (add_event PASSWORD password form edited_df s) = s).
Proof.
  unfold save_changes, add_event.
  destruct clicked, (String.eqb password PASSWORD), (submit_event form),
    (negb (String.eqb password "")); repeat split; discriminate.
Qed.

(** X15: a wrong password is answered with the "Incorrect password." error
    by "Save Changes" always, and by the add form unless the password is
    empty: an empty wrong password there has no effect at all. *)
Theorem wrong_password_message
    (s : app) (password : string) (edited_df : DataFrame) (form : add_form) :
  password <> PASSWORD ->
  save_changes PASSWORD true password edited_df s =
    (s, [Error "❌ Incorrect password."]) /\
  add_event PASSWORD password form edited_df s =
    (s, if String.eqb password "" then []
        else [Error "❌ Incorrect password."]).
Proof.
  intros Hne. apply String.eqb_neq in Hne.
  unfold save_changes, add_event. rewrite Hne.
  destruct (String.eqb password ""); split; reflexivity.
Qed.

(** X17: the table a submitted form gives is left as it is by line 98 of
    the next run, when the edited table was in the canonical schema and its
    "Event Start" held timestamps and NaT only. *)
Theorem updated_df_survives_rerun
    (edited_df : DataFrame) (form : add_form) (start : Series) :
  columns edited_df = required_cols ->
  getitem edited_df "Event Start" = Ok start ->
  forallb is_datetime start = true ->
  coerce_event_start (updated_df edited_df form) =
    Ok (updated_df edited_df form).
Proof.
  intros Hc Hst Hdt. apply getitem_lookup in Hst.
  assert (Hl : lookup "Event Start" (cols (updated_df edited_df form)) =
               Some (start ++
                     [CTimestamp
                        (combine (event_date form) (event_time form))])%list).
  { rewrite (updated_df_cols _ _ Hc).
    rewrite (lookup_map_names required_cols _ "Event Start")
      by apply event_start_required.
    unfold column_or_nan. rewrite Hst. reflexivity. }
  rewrite (coerce_event_start_ok _ _ Hl). f_equal.
  rewrite to_datetime_fixed.
  - unfold setitem. rewrite (assign_same _ _ _ Hl).
    now destruct (updated_df edited_df form).
  - rewrite forallb_app, Hdt. reflexivity.
Qed.

(** X18: two forms submitted one after the other, on an edited table in the
    canonical schema with one value per row in each column, give a table of
    the same kind whose rows are the old rows, the first form's row, then
    the second form's row. *)
Theorem two_events_append_in_order
    (edited_df : DataFrame) (first second : add_form) :
  columns edited_df = required_cols ->
  well_formed edited_df = true ->
  let updated := updated_df (updated_df edited_df first) second in
  columns updated = required_cols /\
  well_formed updated = true /\
  nrows updated = nrows edited_df + 2 /\
  itertuples updated =
    (itertuples edited_df ++
     [map snd (new_row first); map snd (new_row second)])%list.
Proof.
  intros Hc Hwf updated. subst updated.
  pose proof (updated_df_columns edited_df first Hc) as Hc1.
  pose proof (updated_df_well_formed edited_df first Hc Hwf) as Hwf1.
  split; [now apply updated_df_columns|].
  split; [now apply updated_df_well_formed|]. split.
  - unfold updated_df, concat. cbn [nrows from_record]. lia.
  - rewrite (updated_df_itertuples _ _ Hc1 Hwf1).
    rewrite (updated_df_itertuples _ _ Hc Hwf).
    now rewrite <- app_assoc.
Qed.

End HandlersMore.

(** * The further properties on the plain spreadsheet *)

Lemma load_data_keeps_other_columns_witness :
  In "Post Code" required_cols /\
  "Post Code" <> "Event Start" /\
  getitem (read_excel legacy_sheet) "Post Code" = Ok [CStr "LS1 1AA"] /\
  exists df,
    load_data (Some legacy_sheet) = Ok df /\
    getitem df "Post Code" = Ok [CStr "LS1 1AA"].
Proof.
  assert (Hin : In "Post Code" required_cols) by (simpl; auto).
  assert (Hne : "Post Code" <> "Event Start") by discriminate.
  split; [exact Hin|]. split; [exact Hne|]. split; [reflexivity|].
  exact (load_data_keeps_other_columns (H:=plain) legacy_sheet "Post Code"
           [CStr "LS1 1AA"] Hin Hne eq_refl).
Defined.

Lemma load_data_ignores_other_columns_witness :
  nrows (read_excel legacy_sheet) = nrows (read_excel annotated_sheet) /\
  (forall c,
     In c ("Event Date" :: required_cols) ->
     getitem (read_excel legacy_sheet) c =
     getitem (read_excel annotated_sheet) c) /\
  load_data (Some legacy_sheet) = load_data (Some annotated_sheet).
Proof.
  assert (Hsame : forall c,
            In c ("Event Date" :: required_cols) ->
            getitem (read_excel legacy_sheet) c =
            getitem (read_excel annotated_sheet) c).
  { intros c [<-|Hc]; [reflexivity|].
    revert c Hc. apply required_cols_cases; reflexivity. }
  split; [reflexivity|]. split; [exact Hsame|].
  exact (load_data_ignores_other_columns (H:=plain) legacy_sheet
           annotated_sheet eq_refl Hsame).
Defined.

Lemma load_data_well_formed_witness :
  well_formed (read_excel mixed_sheet) = true /\
  exists df,
    load_data (Some mixed_sheet) = Ok df /\
    nrows df = 3 /\
    well_formed df = true.
Proof.
  split; [reflexivity|].
  exact (load_data_well_formed (H:=plain) mixed_sheet eq_refl).
Defined.

Lemma load_data_idempotent_witness :
  load_data (Some legacy_sheet) = Ok (loaded legacy_sheet) /\
  read_excel (loaded legacy_sheet) = loaded legacy_sheet /\
  load_data (Some (loaded legacy_sheet)) = Ok (loaded legacy_sheet).
Proof.
  split; [reflexivity|]. split; [reflexivity|].
  exact (load_data_idempotent (H:=plain) legacy_sheet (loaded legacy_sheet)
           (loaded legacy_sheet) eq_refl eq_refl).
Defined.

Lemma load_data_full_start_ignores_legacy_witness :
  forallb notnull [CStr "2024-05-04"; CStr "tbc"] = true /\
  exists df,
    load_data (Some full_start_sheet) = Ok df /\
    getitem df "Event Start" = Ok [CTimestamp (midnight 2024 5 4); CNaT].
Proof.
  split; [reflexivity|].
  exact (load_data_full_start_ignores_legacy (H:=plain) full_start_sheet
           [CStr "2024-05-04"; CStr "tbc"]
           [CStr "2024-05-01"; CStr "2024-06-02"] eq_refl eq_refl eq_refl).
Defined.

Lemma load_data_blank_start_uses_legacy_witness :
  well_formed (read_excel blank_start_sheet) = true /\
  forallb (fun c => negb (notnull c)) [CNaN; CNaT] = true /\
  exists df,
    load_data (Some blank_start_sheet) = Ok df /\
    getitem df "Event Start" = Ok [CTimestamp (midnight 2024 5 1); CNaT].
Proof.
  split; [reflexivity|]. split; [reflexivity|].
  exact (load_data_blank_start_uses_legacy (H:=plain) blank_start_sheet
           [CNaN; CNaT] [CStr "2024-05-01"; CStr "soon"]
           eq_refl eq_refl eq_refl eq_refl).
Defined.

Lemma load_data_no_rows_witness :
  well_formed (read_excel header_only_sheet) = true /\
  nrows (read_excel header_only_sheet) = 0 /\
  load_data (Some header_only_sheet) = load_data None.
Proof.
  split; [reflexivity|]. split; [reflexivity|].
  exact (load_data_no_rows (H:=plain) header_only_sheet eq_refl eq_refl).
Defined.

Lemma coerce_event_start_idempotent_witness :
  exists d1,
    coerce_event_start unified_sheet = Ok d1 /\
    getitem d1 "Event Start" = Ok [CNaT] /\
    coerce_event_start d1 = Ok d1.
Proof.
  eexists. split; [reflexivity|]. split; [reflexivity|].
  exact (coerce_event_start_idempotent (H:=plain) unified_sheet _ eq_refl).
Defined.

Lemma session_event_start_renders_witness :
  exists df,
    session_table (Some mixed_sheet) None = Ok df /\
    at_row df 0 "Event Start" = Some (CTimestamp nine_thirty) /\
    format_cell (CTimestamp nine_thirty) = strftime nine_thirty.
Proof.
  assert (Hs : exists df,
            session_table (Some mixed_sheet) None = Ok df /\
            at_row df 0 "Event Start" = Some (CTimestamp nine_thirty)).
  { eexists. split; vm_compute; reflexivity. }
  destruct Hs as (df & Hs & Ha). exists df.
  split; [exact Hs|]. split; [exact Ha|].
  destruct (session_event_start_renders (H:=plain) (Some mixed_sheet) None
              df 0 (CTimestamp nine_thirty) Hs Ha)
    as [[Hnat _]|(t & Ht & Hfmt & _)].
  - discriminate Hnat.
  - injection Ht as <-. exact Hfmt.
Defined.

Lemma generate_pdf_no_column_raises_witness :
  columns (mkFrame 3 []) = [] /\
  generate_pdf (mkFrame 3 []) = Raise ZeroDivisionError.
Proof.
  split; [reflexivity|].
  exact (generate_pdf_no_column_raises (mkFrame 3 []) eq_refl).
Defined.

Lemma format_cell_timestamp_to_the_minute_witness :
  printable nine_thirty = true /\
  printable nine_thirty_and_a_half = true /\
  format_cell (CTimestamp nine_thirty) =
  format_cell (CTimestamp nine_thirty_and_a_half).
Proof.
  split; [reflexivity|]. split; [reflexivity|].
  apply (format_cell_timestamp_to_the_minute nine_thirty
           nine_thirty_and_a_half eq_refl eq_refl).
  repeat split.
Defined.

Lemma wrong_password_message_witness :
  "" <> "referee" /\
  save_changes "referee" true "" canonical_sheet closed_app =
    (closed_app, [Error "❌ Incorrect password."]) /\
  add_event "referee" "" sample_form canonical_sheet closed_app =
    (closed_app, []).
Proof.
  assert (Hne : "" <> "referee") by discriminate.
  split; [exact Hne|].
  exact (wrong_password_message (H:=plain) "referee" closed_app ""
           canonical_sheet sample_form Hne).
Defined.

Lemma updated_df_survives_rerun_witness :
  columns canonical_sheet = required_cols /\
  getitem canonical_sheet "Event Start" =
    Ok [CTimestamp nine_thirty; CNaT] /\
  forallb is_datetime [CTimestamp nine_thirty; CNaT] = true /\
  coerce_event_start (updated_df canonical_sheet sample_form) =
    Ok (updated_df canonical_sheet sample_form).
Proof.
  split; [reflexivity|]. split; [reflexivity|]. split; [reflexivity|].
  exact (updated_df_survives_rerun (H:=plain) canonical_sheet sample_form
           [CTimestamp nine_thirty; CNaT] eq_refl eq_refl eq_refl).
Defined.

Lemma two_events_append_in_order_witness :
  columns canonical_sheet = required_cols /\
  well_formed canonical_sheet = true /\
  itertuples (updated_df (updated_df canonical_sheet sample_form)
                second_form) =
    (itertuples canonical_sheet ++
     [map snd (new_row sample_form); map snd (new_row second_form)])%list.
Proof.
  split; [reflexivity|]. split; [reflexivity|].
  exact (proj2 (proj2 (proj2
           (two_events_append_in_order canonical_sheet sample_form
              second_form eq_refl eq_refl)))).
Defined.
